(** * Survival analysis pipeline (src/app.py): shallow embedding and properties

    The program reads one table of subjects, splits it into label groups,
    resolves a survival duration and an event indicator per subject, and
    hands the result to a Kaplan-Meier estimator, a censoring extractor and a
    logrank comparison.  The functions of [app.py] are embedded below under
    their own names.  A pandas [Series] is a list of (index label, value)
    pairs, a [DataFrame] a header with indexed rows, Python exceptions are the
    [Raise] branch of [result], and numbers are binary64 floats and unbounded
    integers, as in Python. *)

From Stdlib Require Import ZArith String Ascii List Bool Lia Permutation Sorted.
From Stdlib Require Import Floats.
Import ListNotations.

Local Open Scope string_scope.
Local Open Scope list_scope.
Local Open Scope Z_scope.

(** ** Exceptions and the error monad *)

Inductive exn : Type :=
| ValueError (msg : string)
| KeyError (key : string)
| AttributeError (attr : string)
| IndexError (msg : string)
| IndexingError (msg : string)
| LibraryError (msg : string).

Inductive result (A : Type) : Type :=
| Ok (a : A)
| Raise (e : exn).

Arguments Ok {A} a.
Arguments Raise {A} e.

Definition bind {A B} (r : result A) (k : A -> result B) : result B :=
  match r with
  | Ok a => k a
  | Raise e => Raise e
  end.

Notation "x <- c1 ;; c2" := (bind c1 (fun x => c2))
  (at level 61, c1 at next level, right associativity).
Notation "' pat <- c1 ;; c2" := (bind c1 (fun x => match x with pat => c2 end))
  (at level 61, pat pattern, c1 at next level, right associativity).

(** A list comprehension whose body may raise: the first exception stops it. *)
Fixpoint mapM {A B} (f : A -> result B) (l : list A) : result (list B) :=
  match l with
  | [] => Ok []
  | x :: t => y <- f x ;; ys <- mapM f t ;; Ok (y :: ys)
  end.

Lemma mapM_length {A B} (f : A -> result B) (l : list A) (r : list B) :
  mapM f l = Ok r -> length r = length l.
Proof.
  revert r; induction l as [|x t IH]; intros r; simpl.
  - intros [= <-]; reflexivity.
  - destruct (f x) as [y|]; simpl; [|discriminate].
    destruct (mapM f t) as [ys|]; simpl; [|discriminate].
    intros [= <-]; simpl; f_equal; apply IH; reflexivity.
Qed.

(** ** Cells

    A cell of a table read by [pd.read_csv]: a Python [bool], [int], [float]
    or [str].  A missing value is the float NaN. *)

Inductive cell : Type :=
| CBool (b : bool)
| CInt (z : Z)
| CFloat (f : float)
| CStr (s : string).

Definition NaN : cell := CFloat nan.

(** [pd.isna] on one cell. *)
Definition isna (c : cell) : bool :=
  match c with
  | CFloat f => is_nan f
  | _ => false
  end.

(** [float(int)]: the binary64 nearest to an integer, ties to even. *)
Definition float_of_Z (z : Z) : float :=
  SF2Prim (binary_normalize prec emax z 0 false).

(** The integer a float is exactly equal to, when there is one. *)
Definition sf_exact_Z (x : spec_float) : option Z :=
  match x with
  | S754_zero _ => Some 0
  | S754_finite s m e =>
      if 0 <=? e then Some (cond_Zopp s (Zpos m * 2 ^ e))
      else if Zpos m mod 2 ^ (- e) =? 0
           then Some (cond_Zopp s (Zpos m / 2 ^ (- e)))
           else None
  | _ => None
  end.

Definition float_exact_Z (f : float) : option Z := sf_exact_Z (Prim2SF f).

(** Python compares an [int] with a [float] exactly: they are equal when the
    integer is representable and its float is equal to the other one. *)
Definition int_eq_float (z : Z) (f : float) : bool :=
  match float_exact_Z (float_of_Z z) with
  | Some z' => (z =? z') && (float_of_Z z =? f)%float
  | None => false
  end.

(** The number a non-string scalar stands for.  [bool] is a subclass of [int]:
    [True] is 1 and [False] is 0. *)
Inductive pynum : Type :=
| NInt (z : Z)
| NFloat (f : float).

Definition as_num (c : cell) : option pynum :=
  match c with
  | CBool b => Some (NInt (Z.b2z b))
  | CInt z => Some (NInt z)
  | CFloat f => Some (NFloat f)
  | CStr _ => None
  end.

Definition num_eq (x y : pynum) : bool :=
  match x, y with
  | NInt a, NInt b => a =? b
  | NFloat f, NFloat g => (f =? g)%float
  | NInt z, NFloat f | NFloat f, NInt z => int_eq_float z f
  end.

(** Python's [==] on two scalars; a string is equal to strings only. *)
Definition py_eq (a b : cell) : bool :=
  match a, b with
  | CStr s, CStr t => String.eqb s t
  | _, _ =>
      match as_num a, as_num b with
      | Some x, Some y => num_eq x y
      | _, _ => false
      end
  end.

(** ** Series and data frames *)

(** A [pd.Series]: index labels paired with values, in positional order. *)
Definition Series (A : Type) : Type := list (Z * A).

Definition index {A} (s : Series A) : list Z := map fst s.
Definition values {A} (s : Series A) : list A := map snd s.

(** [range(n)] as an index. *)
Definition range_index (n : nat) : list Z := map Z.of_nat (seq 0 n).

(** A [pd.DataFrame]: the header and the rows, each row with its index label.
    [pd.read_csv] gives the rows the labels 0, 1, 2, ... *)
Record DataFrame : Type := {
  columns : list string;
  rows : list (Z * list cell)
}.

Definition frame_index (data : DataFrame) : list Z := map fst (rows data).

(** [len(data)] *)
Definition len (data : DataFrame) : nat := length (rows data).

Definition read_csv_shaped (data : DataFrame) : Prop :=
  frame_index data = range_index (len data).

Fixpoint column_position (c : string) (cols : list string) : option nat :=
  match cols with
  | [] => None
  | h :: t => if String.eqb c h then Some 0%nat
              else option_map S (column_position c t)
  end.

(** [c in data.columns] *)
Definition has_column (c : string) (data : DataFrame) : bool :=
  match column_position c (columns data) with
  | Some _ => true
  | None => false
  end.

(** [data[c]]: the column as a Series over the frame's index. *)
Definition getitem (data : DataFrame) (c : string) : result (Series cell) :=
  match column_position c (columns data) with
  | Some k => Ok (map (fun r => (fst r, nth k (snd r) NaN)) (rows data))
  | None => Raise (KeyError c)
  end.

(** [data.c], attribute access to a column. *)
Definition getattr (data : DataFrame) (c : string) : result (Series cell) :=
  match column_position c (columns data) with
  | Some k => Ok (map (fun r => (fst r, nth k (snd r) NaN)) (rows data))
  | None => Raise (AttributeError c)
  end.

(** The elements of [l] at the positions where [mask] is true. *)
Definition select {A} (mask : list bool) (l : list A) : list A :=
  map snd (filter fst (combine mask l)).

(** [x.iloc[np.array(mask)]]: positional selection by a boolean array, which
    must be as long as [x]. *)
Definition iloc_mask {A} (mask : list bool) (l : list A) : result (list A) :=
  if Nat.eqb (length mask) (length l) then Ok (select mask l)
  else Raise (IndexError "Boolean index has wrong length").

(** [data.iloc[np.array(mask), :]] *)
Definition iloc_rows (mask : list bool) (data : DataFrame) : result DataFrame :=
  r <- iloc_mask mask (rows data) ;;
  Ok {| columns := columns data; rows := r |}.

(** Positional assignment: the positions of [target] where [mask] is true
    take the values [vals] in order; index labels play no part. *)
Fixpoint put {A} (mask : list bool) (target : Series A) (vals : list A)
  : Series A :=
  match mask, target with
  | true :: m, (i, x) :: t =>
      match vals with
      | v :: vs => (i, v) :: put m t vs
      | [] => (i, x) :: t
      end
  | false :: m, x :: t => x :: put m t vals
  | _, _ => target
  end.

Definition count_true (mask : list bool) : nat := length (filter id mask).

(** [target.iloc[np.array(mask)] = vals] *)
Definition iloc_set {A} (mask : list bool) (target : Series A) (vals : list A)
  : result (Series A) :=
  if negb (Nat.eqb (length mask) (length target))
  then Raise (IndexError "Boolean index has wrong length")
  else if negb (Nat.eqb (count_true mask) (length vals))
  then Raise (ValueError "cannot set using a mask with a different number of values")
  else Ok (put mask target vals).

Definition list_Z_eqb (a b : list Z) : bool :=
  if list_eq_dec Z.eq_dec a b then true else false.

(** First value stored under index label [i]. *)
Fixpoint lookup {A} (i : Z) (s : Series A) : option A :=
  match s with
  | [] => None
  | (j, v) :: t => if i =? j then Some v else lookup i t
  end.

(** [s[key]] with a boolean Series as key: the key is aligned to the index of
    [s] first, and a label of [s] that the key lacks is an error. *)
Definition getitem_bool {A} (s : Series A) (key : Series bool)
  : result (Series A) :=
  if list_Z_eqb (index key) (index s) then Ok (select (values key) s)
  else
    mask <- mapM (fun i => match lookup i key with
                           | Some b => Ok b
                           | None => Raise (IndexingError
                               ("Unalignable boolean Series provided as indexer"
                                ++ " (index of the boolean Series and of the"
                                ++ " indexed object do not match)."))
                           end) (index s) ;;
    Ok (select mask s).

(** Union of two integer indexes: the index itself when both are the same,
    else the sorted labels of both without repetition. *)
Fixpoint insert_sorted (i : Z) (l : list Z) : list Z :=
  match l with
  | [] => [i]
  | j :: t => if i <? j then i :: l
              else if i =? j then l
              else j :: insert_sorted i t
  end.

Definition union_index (a b : list Z) : list Z :=
  if list_Z_eqb a b then a else fold_right insert_sorted [] (a ++ b).

(** ** The libraries the program calls

    [pd.to_datetime] on the values of a column gives, per row, a timestamp in
    nanoseconds or NaT ([None]), or raises; the result is as long as the
    column.  [float_of_str] is Python's [float] on a [str], and [repr_str]
    is Python's [repr] on a [str], with which the error of [float] shows its
    argument.  The estimator and the logrank statistic are those of
    scikit-survival. *)

Class Library : Type := {
  to_datetime : list cell -> result (list (option Z));
  to_datetime_length :
    forall col ts, to_datetime col = Ok ts -> length ts = length col;
  float_of_str : string -> option float;
  repr_str : string -> string;
  kaplan_meier_estimator :
    list bool -> list float ->
    result (list float * list float * (list float * list float));
  compare_survival : list (bool * float) -> list cell -> result (float * float)
}.

(** The output table of [estimate_survival_function]. *)
Record survival_df : Type := {
  time : list float;
  survival_prob : list float;
  conf_int_lower : list float;
  conf_int_upper : list float
}.

(** The output table of [get_censored_df]: index label, [sample_id],
    [days_at_censoring]. *)
Definition censored_df : Type := list (Z * (cell * float)).

Definition nanoseconds_per_day : Z := 86400000000000.

Definition str_in (s : string) (l : list string) : bool :=
  existsb (String.eqb s) l.

Section App.

Context {L : Library}.

(** [pd.to_datetime(s)] keeps the index of [s]. *)
Definition pd_to_datetime (s : Series cell) : result (Series (option Z)) :=
  ts <- to_datetime (values s) ;;
  Ok (combine (index s) ts).

(** [(census_date - diag_date).dt.days]: whole days, rounded down; missing
    when either timestamp is NaT.  Both Series have the index of the frame,
    and both columns are taken to be of one kind, with or without time zone:
    pandas refuses to subtract one kind from the other. *)
Definition days_between (census diag : option Z) : option Z :=
  match census, diag with
  | Some c, Some d => Some ((c - d) / nanoseconds_per_day)
  | _, _ => None
  end.

Definition sub_dt_days (census_date diag_date : Series (option Z))
  : Series (option Z) :=
  map (fun p => (fst (fst p), days_between (snd (fst p)) (snd (snd p))))
      (combine census_date diag_date).

Definition notna_days (d : option Z) : bool :=
  match d with Some _ => true | None => false end.

(** A day count stored in a float Series. *)
Definition days_to_float (d : option Z) : float :=
  match d with Some z => float_of_Z z | None => nan end.

Definition get_survival_days_from_dates (data : DataFrame)
  (census_date_column : string)
  : result (Series (option Z) * Series bool) :=
  if negb (str_in census_date_column
             ["vital_status_change_date"; "progression_status_change_date"])
  then Raise (ValueError ("Column " ++ census_date_column ++
    " not in ['vital_status_change_date','progression_status_change_date']"))
  else if negb (has_column census_date_column data)
  then Raise (ValueError ("Column " ++ census_date_column ++ " not in data"))
  else
    diag <- getitem data "diagnosis_date" ;;
    diag_date <- pd_to_datetime diag ;;
    census <- getitem data census_date_column ;;
    census_date <- pd_to_datetime census ;;
    let survival_days := sub_dt_days census_date diag_date in
    let success := map (fun p => (fst p, notna_days (snd p))) survival_days in
    Ok (survival_days, success).

(** [float(x)] on one cell, as [astype(float)] applies it.  On a string that
    is no number Python raises
    [ValueError: could not convert string to float: 'unknown'], the string
    shown by its [repr]. *)
Definition to_float (c : cell) : result float :=
  match c with
  | CBool b => Ok (if b then 1%float else 0%float)
  | CInt z => Ok (float_of_Z z)
  | CFloat f => Ok f
  | CStr s =>
      match float_of_str s with
      | Some f => Ok f
      | None => Raise (ValueError ("could not convert string to float: "
                                   ++ repr_str s))
      end
  end.

Definition astype_float (s : Series cell) : result (Series float) :=
  mapM (fun p => f <- to_float (snd p) ;; Ok (fst p, f)) s.

Definition get_survival_days_from_days (data : DataFrame)
  (census_day_column : string)
  : result (Series float * Series bool) :=
  if negb (str_in census_day_column
             ["vital_status_change_day"; "progression_status_change_day"])
  then Raise (ValueError ("Column " ++ census_day_column ++
    " not in ['vital_status_change_day','progression_status_change_day']"))
  else if negb (has_column census_day_column data)
  then Raise (ValueError ("Column " ++ census_day_column ++ " not in data"))
  else
    survival_days <- getitem data "vital_status_change_day" ;;
    survival_days <- astype_float survival_days ;;
    let success := map (fun p => (fst p, negb (is_nan (snd p)))) survival_days in
    Ok (survival_days, success).

Definition get_survival_columns (type : string) : result (string * string) :=
  if negb (str_in type ["progress"; "vital"])
  then Raise (ValueError ("Type " ++ type ++ " not in ['progress','vital']"))
  else if String.eqb type "progress"
  then Ok ("progression_status_change_date", "progression_status_change_day")
  else Ok ("vital_status_change_date", "vital_status_change_day").

Definition get_survival_days (data : DataFrame) (type : string)
  : result (Series float) :=
  '(date_col, day_col) <- get_survival_columns type ;;
  let survival_days : Series float :=
    map (fun i => (i, nan)) (range_index (len data)) in
  '(s1, success) <- get_survival_days_from_dates data date_col ;;
  let mask := values success in
  v1 <- iloc_mask mask (values s1) ;;
  survival_days <- iloc_set mask survival_days (map days_to_float v1) ;;
  '(s2, _) <- get_survival_days_from_days data day_col ;;
  v2 <- iloc_mask (map negb mask) (values s2) ;;
  iloc_set (map negb mask) survival_days v2.

Definition estimate_survival_function (survival : Series float)
  (exit_status : Series bool) : result survival_df :=
  '(t, prob, conf_int) <-
     kaplan_meier_estimator (values exit_status) (values survival) ;;
  Ok {| time := t; survival_prob := prob;
        conf_int_lower := fst conf_int; conf_int_upper := snd conf_int |}.

(** [pd.DataFrame({"sample_id": a, "days_at_censoring": b})]: the two Series
    are aligned on the union of their indexes, and a label that one of them
    lacks gets NaN there. *)
Definition frame_of_series (a : Series cell) (b : Series float) : censored_df :=
  if list_Z_eqb (index a) (index b)
  then map (fun p => (fst (fst p), (snd (fst p), snd (snd p)))) (combine a b)
  else map (fun i => (i, (match lookup i a with Some c => c | None => NaN end,
                          match lookup i b with Some f => f | None => nan end)))
           (union_index (index a) (index b)).

Definition get_censored_df (survival_days : Series float)
  (exit_status : Series bool) (ids : Series cell) : result censored_df :=
  let censored := map (fun p => (fst p, Bool.eqb (snd p) false)) exit_status in
  sample_id <- getitem_bool ids censored ;;
  days_at_censoring <- iloc_mask (values censored) survival_days ;;
  Ok (frame_of_series sample_id days_at_censoring).

Definition get_exit_status (data : DataFrame) (type : string)
  : result (Series bool) :=
  if negb (str_in type ["progress"; "vital"])
  then Raise (ValueError ("Type " ++ type ++ " not in ['progress','vital']"))
  else if String.eqb type "vital"
  then col <- getitem data "vital_status" ;;
       Ok (map (fun p => (fst p, py_eq (snd p) (CBool false))) col)
  else col <- getitem data "progression_status" ;;
       Ok (map (fun p => (fst p, py_eq (snd p) (CBool true))) col).

(** [pd.Series(np.zeros(len(data), dtype=int), dtype=str)] when the table has
    no label column: the string "0" for every row, over a fresh range index. *)
Definition get_labels (data : DataFrame) : result (Series cell) :=
  if negb (has_column "label" data)
  then Ok (map (fun i => (i, CStr "0")) (range_index (len data)))
  else getitem data "label".

(** Two values are the same key of the hash table behind [unique] when they
    are equal, or both missing. *)
Definition key_eq (a b : cell) : bool :=
  (isna a && isna b) || py_eq a b.

(** [label.unique()]: the distinct values in order of first appearance. *)
Fixpoint unique_from (seen : list cell) (l : list cell) : list cell :=
  match l with
  | [] => []
  | x :: t =>
      if existsb (fun k => key_eq k x) seen then unique_from seen t
      else x :: unique_from (x :: seen) t
  end.

Definition unique (l : list cell) : list cell := unique_from [] l.

(** [label == l], elementwise. *)
Definition eq_mask (label : Series cell) (l : cell) : list bool :=
  map (fun c => py_eq c l) (values label).

Definition get_subsets (data : DataFrame) (label : Series cell)
  : result (list DataFrame * list cell) :=
  subsets <- mapM (fun l => iloc_rows (eq_mask label l) data)
                  (unique (values label)) ;;
  Ok (subsets, unique (values label)).

Definition get_survival_function_and_censored_dfs
  (survival_days : Series float) (exit_status : Series bool)
  (ids : Series cell) : result (survival_df * censored_df) :=
  output <- estimate_survival_function survival_days exit_status ;;
  output_censored <- get_censored_df survival_days exit_status ids ;;
  Ok (output, output_censored).

(** The two fields of the structured array are filled positionally from the
    Series.  The array is as long as [survival_days]; numpy repeats a
    one-element [exit_status] over it and refuses any other length that is
    not the array's. *)
Definition logrank_test (survival_days : Series float)
  (exit_status : Series bool) (label : Series cell) : result (float * float) :=
  if Nat.eqb (length exit_status) (length survival_days)
  then compare_survival (combine (values exit_status) (values survival_days))
                        (values label)
  else
    match values exit_status with
    | [e] => compare_survival
               (combine (repeat e (length survival_days)) (values survival_days))
               (values label)
    | _ => Raise (ValueError "could not broadcast input array")
    end.

(** ** The orchestrator

    What a run does to the outside: the tables it writes, named by kind and
    group label, and its call of the comparator with the three sequences
    handed over.  Console output is left out. *)
Inductive event : Type :=
| WriteResult (l : cell) (df : survival_df)
| WriteCensored (l : cell) (df : censored_df)
| CallLogrank (survival_days : list float) (exit_status : list bool)
              (label : list cell)
| WriteLogrank (chi2 p : float).

Record groups : Type := {
  label_of : Series cell;
  subsets_of : list DataFrame;
  unique_labels : list cell;
  survival_days_of : list (Series float);
  exit_status_of : list (Series bool);
  survival_functions : list survival_df;
  censored_dfs : list censored_df
}.

(** [zip] over the unpacked list of pairs, bound to two names: with no pair
    at all the unpacking fails. *)
Definition unzip2 {A B} (l : list (A * B)) : result (list A * list B) :=
  match l with
  | [] => Raise (ValueError "not enough values to unpack (expected 2, got 0)")
  | _ => Ok (split l)
  end.

(** Lines 229 to 242 of [main]: everything computed before the first write. *)
Definition per_group (data : DataFrame) (type : string) : result groups :=
  label <- get_labels data ;;
  '(subsets, unique_labels) <- get_subsets data label ;;
  survival_days <- mapM (fun subset => get_survival_days subset type) subsets ;;
  exit_status <- mapM (fun subset => get_exit_status subset type) subsets ;;
  pairs <- mapM (fun sed =>
                   ids <- getattr (snd sed) "sample_id" ;;
                   get_survival_function_and_censored_dfs
                     (fst (fst sed)) (snd (fst sed)) ids)
                (combine (combine survival_days exit_status) subsets) ;;
  '(fs, cs) <- unzip2 pairs ;;
  Ok {| label_of := label; subsets_of := subsets;
        unique_labels := unique_labels;
        survival_days_of := survival_days; exit_status_of := exit_status;
        survival_functions := fs; censored_dfs := cs |}.

Definition group_writes (g : groups) : list event :=
  flat_map (fun lsc => [WriteResult (fst (fst lsc)) (snd (fst lsc));
                        WriteCensored (fst (fst lsc)) (snd lsc)])
           (combine (combine (unique_labels g) (survival_functions g))
                    (censored_dfs g)).

(** [main], from the loaded table on: the events of the run and its outcome. *)
Definition main (data : DataFrame) (type : string) : list event * result unit :=
  match per_group data type with
  | Raise e => ([], Raise e)
  | Ok g =>
      if (1 <? length (unique_labels g))%nat
      then
        let sd := concat (survival_days_of g) in
        let es := concat (exit_status_of g) in
        let call := CallLogrank (values sd) (values es) (values (label_of g)) in
        match logrank_test sd es (label_of g) with
        | Raise e => (group_writes g ++ [call], Raise e)
        | Ok (chi2, p) =>
            (group_writes g ++ [call; WriteLogrank chi2 p], Ok tt)
        end
      else (group_writes g, Ok tt)
  end.

End App.

(** ** Notions the statements use *)

(** Elementwise choice between two lists under a mask. *)
Fixpoint choose {A} (mask : list bool) (a b : list A) : list A :=
  match mask, a, b with
  | m :: ms, x :: xs, y :: ys => (if m then x else y) :: choose ms xs ys
  | _, _, _ => []
  end.

(** The status column an analysis type reads. *)
Definition status_column (type : string) : string :=
  if String.eqb type "vital" then "vital_status" else "progression_status".

(** The value whose presence in the status column is the event. *)
Definition event_value (type : string) : bool :=
  if String.eqb type "vital" then false else true.

(** The value [u] stands at position [p] of [l], and nowhere before. *)
Definition is_first (l : list cell) (p : nat) (u : cell) : Prop :=
  nth_error l p = Some u /\
  forall j c, (j < p)%nat -> nth_error l j = Some c -> key_eq c u = false.

(** No two of the values are the same key. *)
Fixpoint distinct_keys (us : list cell) : Prop :=
  match us with
  | [] => True
  | u :: t => (forall v, In v t -> key_eq u v = false) /\ distinct_keys t
  end.

(** [a] is [b] with some elements left out, the others in the same order. *)
Inductive subseq {A : Type} : list A -> list A -> Prop :=
| subseq_nil : subseq [] []
| subseq_skip (x : A) (a b : list A) : subseq a b -> subseq a (x :: b)
| subseq_keep (x : A) (a b : list A) : subseq a b -> subseq (x :: a) (x :: b).

(** The subset of one label. *)
Definition subset_of (data : DataFrame) (label : Series cell) (l : cell)
  : DataFrame :=
  {| columns := columns data; rows := select (eq_mask label l) (rows data) |}.

(** The call of the comparator and the writing of its table. *)
Definition is_logrank_event (ev : event) : bool :=
  match ev with
  | CallLogrank _ _ _ | WriteLogrank _ _ => true
  | _ => false
  end.

(** The table an event writes: the stem of its file name and, for a group
    table, the label in the name. *)
Definition written_table (ev : event) : option (string * option cell) :=
  match ev with
  | WriteResult l _ => Some ("result", Some l)
  | WriteCensored l _ => Some ("censored", Some l)
  | WriteLogrank _ _ => Some ("logrank_test", None)
  | CallLogrank _ _ _ => None
  end.

(** ** A library instance to run the program on concrete tables

    Dates are read in the form YYYY-MM-DD, a missing cell is NaT and any other
    cell raises; [float] reads decimal integer literals; the estimator and the
    comparator return fixed tables. *)

Definition digit_of (a : ascii) : option Z :=
  let n := Z.of_nat (nat_of_ascii a) in
  if (48 <=? n) && (n <=? 57) then Some (n - 48) else None.

Fixpoint digits_from (acc : Z) (s : string) : option Z :=
  match s with
  | EmptyString => Some acc
  | String a t =>
      match digit_of a with
      | Some d => digits_from (10 * acc + d) t
      | None => None
      end
  end.

Definition number_of (s : string) : option Z :=
  match s with
  | EmptyString => None
  | _ => digits_from 0 s
  end.

(** Days from 1970-01-01 to a date of the proleptic Gregorian calendar. *)
Definition days_from_civil (y m d : Z) : Z :=
  let y' := if m <=? 2 then y - 1 else y in
  let era := y' / 400 in
  let yoe := y' - era * 400 in
  let doy := (153 * (if 2 <? m then m - 3 else m + 9) + 2) / 5 + d - 1 in
  let doe := yoe * 365 + yoe / 4 - yoe / 100 + doy in
  era * 146097 + doe - 719468.

Definition iso_date (s : string) : option Z :=
  if negb (Nat.eqb (String.length s) 10) then None
  else
    match number_of (substring 0 4 s), number_of (substring 5 2 s),
          number_of (substring 8 2 s) with
    | Some y, Some m, Some d =>
        if String.eqb (substring 4 1 s) "-" && String.eqb (substring 7 1 s) "-"
           && (1 <=? m) && (m <=? 12) && (1 <=? d) && (d <=? 31)
        then Some (days_from_civil y m d * nanoseconds_per_day)
        else None
    | _, _, _ => None
    end.

Definition iso_cell (c : cell) : result (option Z) :=
  match c with
  | CStr s =>
      match iso_date s with
      | Some t => Ok (Some t)
      | None => Raise (ValueError ("Unknown datetime string format: " ++ s))
      end
  | CFloat f =>
      if is_nan f then Ok None
      else Raise (LibraryError "numeric timestamps are not read")
  | _ => Raise (LibraryError "numeric timestamps are not read")
  end.

Definition int_literal (s : string) : option float :=
  match s with
  | String "-" t => option_map (fun z => float_of_Z (- z)) (number_of t)
  | _ => option_map float_of_Z (number_of s)
  end.

(** [repr] of a string that holds no quote, no backslash and no control
    character: the string between single quotes. *)
Definition quoted (s : string) : string := "'" ++ s ++ "'".

Definition iso_library : Library := {|
  to_datetime := mapM iso_cell;
  to_datetime_length := mapM_length iso_cell;
  float_of_str := int_literal;
  repr_str := quoted;
  kaplan_meier_estimator := fun _ t => Ok (t, map (fun _ => 1%float) t,
                                           (map (fun _ => 1%float) t,
                                            map (fun _ => 1%float) t));
  compare_survival := fun _ _ => Ok (0%float, 1%float)
|}.

(** The library of the examples with a comparator that always raises. *)
Definition failing_comparator_library : Library := {|
  to_datetime := mapM iso_cell;
  to_datetime_length := mapM_length iso_cell;
  float_of_str := int_literal;
  repr_str := quoted;
  kaplan_meier_estimator := kaplan_meier_estimator (Library := iso_library);
  compare_survival := fun _ _ => Raise (LibraryError "comparison failed")
|}.

(** ** Concrete tables *)

(** Two subjects under [vital]: the first has both dates, ten days apart, and
    a day count of 7; the second has no follow-up date and a day count of 42. *)
Definition fallback_table : DataFrame := {|
  columns := ["sample_id"; "diagnosis_date"; "vital_status_change_date";
              "vital_status_change_day"; "vital_status"];
  rows := [(0, [CStr "s0"; CStr "2020-01-01"; CStr "2020-01-11"; CInt 7;
                CBool false]);
           (1, [CStr "s1"; CStr "2020-01-01"; NaN; CInt 42; CBool true])]
|}.

(** One subject under [vital] with both dates, ten days apart, in a table
    that has no day-count column. *)
Definition dates_only_table : DataFrame := {|
  columns := ["sample_id"; "diagnosis_date"; "vital_status_change_date";
              "vital_status"];
  rows := [(0, [CStr "s0"; CStr "2020-01-01"; CStr "2020-01-11"; CBool false])]
|}.

(** One subject under [progress] with no follow-up date: its progression
    day count is 10 and its vital day count is 99. *)
Definition progress_table : DataFrame := {|
  columns := ["sample_id"; "diagnosis_date"; "progression_status_change_date";
              "progression_status_change_day"; "progression_status";
              "vital_status_change_day"];
  rows := [(0, [CStr "s0"; CStr "2020-01-01"; NaN; CInt 10; CBool true;
                CInt 99])]
|}.

(** A vital subject who died, one alive, and one with no status. *)
Definition status_table : DataFrame := {|
  columns := ["sample_id"; "vital_status"; "progression_status"];
  rows := [(0, [CStr "s0"; CBool false; CBool true]);
           (1, [CStr "s1"; CBool true; CBool false]);
           (2, [CStr "s2"; NaN; NaN])]
|}.

(** Three subjects under [vital] with no follow-up date, labelled A, B, A in
    this order, with day counts 10, 20, 30; the first two died. *)
Definition interleaved_table : DataFrame := {|
  columns := ["sample_id"; "label"; "diagnosis_date";
              "vital_status_change_date"; "vital_status_change_day";
              "vital_status"];
  rows := [(0, [CStr "s0"; CStr "A"; CStr "2020-01-01"; NaN; CInt 10;
                CBool false]);
           (1, [CStr "s1"; CStr "B"; CStr "2020-01-01"; NaN; CInt 20;
                CBool false]);
           (2, [CStr "s2"; CStr "A"; CStr "2020-01-01"; NaN; CInt 30;
                CBool true])]
|}.

(** Two subjects, the second with no label. *)
Definition missing_label_table : DataFrame := {|
  columns := ["sample_id"; "label"];
  rows := [(0, [CStr "s0"; CStr "A"]); (1, [CStr "s1"; NaN])]
|}.

(** A table with its header and no row. *)
Definition empty_table : DataFrame := {|
  columns := ["sample_id"; "label"; "diagnosis_date";
              "vital_status_change_date"; "vital_status_change_day";
              "vital_status"];
  rows := []
|}.

(** Two censored subjects under [vital], labelled A and B, with day counts 7
    and 42. *)
Definition two_group_table : DataFrame := {|
  columns := ["sample_id"; "label"; "diagnosis_date";
              "vital_status_change_date"; "vital_status_change_day";
              "vital_status"];
  rows := [(0, [CStr "s0"; CStr "A"; CStr "2020-01-01"; NaN; CInt 7;
                CBool true]);
           (1, [CStr "s1"; CStr "B"; CStr "2020-01-01"; NaN; CInt 42;
                CBool true])]
|}.

(** One subject under [vital] in a table without [diagnosis_date]. *)
Definition no_diagnosis_table : DataFrame := {|
  columns := ["sample_id"; "vital_status_change_date";
              "vital_status_change_day"; "vital_status"];
  rows := [(0, [CStr "s0"; CStr "2020-01-11"; CInt 7; CBool false])]
|}.

(** Two subjects under [vital]: the first has both dates and a day-count
    cell that is no number, the second has no follow-up date and the day
    count 42, read as a string like the rest of its column. *)
Definition unknown_day_table : DataFrame := {|
  columns := ["sample_id"; "diagnosis_date"; "vital_status_change_date";
              "vital_status_change_day"; "vital_status"];
  rows := [(0, [CStr "s0"; CStr "2020-01-01"; CStr "2020-01-11";
                CStr "unknown"; CBool false]);
           (1, [CStr "s1"; CStr "2020-01-01"; NaN; CStr "42"; CBool true])]
|}.

(** One subject under [vital] with neither a follow-up date nor a day
    count. *)
Definition gap_table : DataFrame := {|
  columns := ["sample_id"; "diagnosis_date"; "vital_status_change_date";
              "vital_status_change_day"; "vital_status"];
  rows := [(0, [CStr "s0"; CStr "2020-01-01"; NaN; NaN; CBool true])]
|}.

(** Two subjects under [vital] without a follow-up date: the first has no
    day count either, the second has the day count 42. *)
Definition partial_gap_table : DataFrame := {|
  columns := ["sample_id"; "diagnosis_date"; "vital_status_change_date";
              "vital_status_change_day"; "vital_status"];
  rows := [(0, [CStr "s0"; CStr "2020-01-01"; NaN; NaN; CBool true]);
           (1, [CStr "s1"; CStr "2020-01-01"; NaN; CInt 42; CBool true])]
|}.

(** One subject under [vital] whose follow-up is ten days before the
    diagnosis. *)
Definition reversed_dates_table : DataFrame := {|
  columns := ["sample_id"; "diagnosis_date"; "vital_status_change_date";
              "vital_status_change_day"; "vital_status"];
  rows := [(0, [CStr "s0"; CStr "2020-01-11"; CStr "2020-01-01"; CInt 7;
                CBool false])]
|}.

(** The subset of label B of [two_group_table]: its row keeps the label 1. *)
Definition group_b_subset : DataFrame := {|
  columns := ["sample_id"; "label"; "diagnosis_date";
              "vital_status_change_date"; "vital_status_change_day";
              "vital_status"];
  rows := [(1, [CStr "s1"; CStr "B"; CStr "2020-01-01"; NaN; CInt 42;
                CBool true])]
|}.

(** One subject under [vital] in a table without [sample_id]. *)
Definition no_sample_id_table : DataFrame := {|
  columns := ["diagnosis_date"; "vital_status_change_date";
              "vital_status_change_day"; "vital_status"];
  rows := [(0, [CStr "2020-01-01"; CStr "2020-01-11"; CInt 7; CBool false])]
|}.

(** One subject under [progress] in a table with the progression columns
    only. *)
Definition progress_only_table : DataFrame := {|
  columns := ["sample_id"; "diagnosis_date"; "progression_status_change_date";
              "progression_status_change_day"; "progression_status"];
  rows := [(0, [CStr "s0"; CStr "2020-01-01"; NaN; CInt 10; CBool true])]
|}.

(** * Properties *)

(** ** Sanity checks of the embedding *)

Example py_eq_zero_false : py_eq (CInt 0) (CBool false) = true.
Proof. reflexivity. Qed.

Example py_eq_float_int : py_eq (CFloat 42%float) (CInt 42) = true.
Proof. vm_compute. reflexivity. Qed.

Example py_eq_nan_nan : py_eq NaN NaN = false.
Proof. reflexivity. Qed.

Example py_eq_str_bool : py_eq (CStr "False") (CBool false) = false.
Proof. reflexivity. Qed.

Example float_of_Z_42 : float_of_Z 42 = 42%float.
Proof. vm_compute. reflexivity. Qed.

Example iso_date_epoch : iso_date "1970-01-02" = Some nanoseconds_per_day.
Proof. reflexivity. Qed.

Example iso_date_2020 :
  iso_date "2020-03-01" = Some (18322 * nanoseconds_per_day).
Proof. reflexivity. Qed.

(** ** Equality of scalars is an equivalence away from NaN *)

Lemma SFcompare_Eq_inv (a b : spec_float) :
  SFcompare a b = Some Eq ->
  (a = b /\ a <> S754_nan) \/
  (exists s t, a = S754_zero s /\ b = S754_zero t).
Proof.
  destruct a as [s| s | |s m e], b as [t|t| |t n e']; simpl; try discriminate;
    try (destruct s; discriminate); try (destruct t; discriminate).
  - intros _; right; eauto.
  - destruct s, t; try discriminate; intros _; left; split; congruence.
  - destruct s, t; try discriminate;
      destruct (Z.compare_spec e e') as [He|He|He]; try discriminate;
      intros H; left; split; try discriminate; subst e'.
    + assert (Hm : Pos.compare m n = Eq).
      { unfold Pos.compare. destruct (Pos.compare_cont Eq m n); simpl in H; congruence. }
      apply Pos.compare_eq in Hm. congruence.
    + injection H as H. apply Pos.compare_eq in H. congruence.
Qed.

Lemma SFeqb_refl (a : spec_float) : a <> S754_nan -> SFeqb a a = true.
Proof.
  unfold SFeqb; destruct a as [s|s| |s m e]; simpl; try congruence.
  - destruct s; reflexivity.
  - intros _. destruct s; rewrite Z.compare_refl;
      change (Pos.compare_cont Eq m m) with (Pos.compare m m);
      rewrite Pos.compare_refl; reflexivity.
Qed.

Lemma SFeqb_true (a b : spec_float) :
  SFeqb a b = true <->
  (a = b /\ a <> S754_nan) \/ (exists s t, a = S754_zero s /\ b = S754_zero t).
Proof.
  split.
  - unfold SFeqb. destruct (SFcompare a b) as [[]|] eqn:H; try discriminate.
    intros _; apply SFcompare_Eq_inv; exact H.
  - intros [[<- H]|(s & t & -> & ->)]; [apply SFeqb_refl; exact H|reflexivity].
Qed.

Lemma SFeqb_sym (a b : spec_float) : SFeqb a b = true -> SFeqb b a = true.
Proof.
  rewrite !SFeqb_true. intros [[<- H]|(s & t & -> & ->)]; [left; auto|right; eauto].
Qed.

Lemma SFeqb_trans (a b c : spec_float) :
  SFeqb a b = true -> SFeqb b c = true -> SFeqb a c = true.
Proof.
  rewrite !SFeqb_true.
  intros [[<- H]|(s & t & -> & ->)] [[<- H']|(s' & t' & E & ->)].
  - left; auto.
  - right; eauto.
  - right; eauto.
  - right; eauto.
Qed.

Lemma sf_exact_Z_eqb (a b : spec_float) :
  SFeqb a b = true -> sf_exact_Z a = sf_exact_Z b.
Proof.
  rewrite SFeqb_true. intros [[<- _]|(s & t & -> & ->)]; reflexivity.
Qed.

Lemma feqb_sym (f g : float) : (f =? g)%float = (g =? f)%float.
Proof.
  rewrite !eqb_spec.
  destruct (SFeqb (Prim2SF f) (Prim2SF g)) eqn:H.
  - symmetry; apply SFeqb_sym; exact H.
  - destruct (SFeqb (Prim2SF g) (Prim2SF f)) eqn:H'; [|reflexivity].
    apply SFeqb_sym in H'; congruence.
Qed.

Lemma feqb_trans (f g h : float) :
  (f =? g)%float = true -> (g =? h)%float = true -> (f =? h)%float = true.
Proof. rewrite !eqb_spec; apply SFeqb_trans. Qed.

Lemma float_exact_Z_eqb (f g : float) :
  (f =? g)%float = true -> float_exact_Z f = float_exact_Z g.
Proof. rewrite eqb_spec; apply sf_exact_Z_eqb. Qed.

Lemma feqb_nan_r (f g : float) : is_nan g = true -> (f =? g)%float = false.
Proof.
  unfold is_nan. rewrite negb_true_iff, !eqb_spec. intros H.
  destruct (SFeqb (Prim2SF f) (Prim2SF g)) eqn:E; [|reflexivity].
  apply SFeqb_sym in E. rewrite (SFeqb_trans _ _ _ E (SFeqb_sym _ _ E)) in H.
  discriminate.
Qed.

Lemma int_eq_float_true (z : Z) (f : float) :
  int_eq_float z f = true <->
  float_exact_Z (float_of_Z z) = Some z /\ (float_of_Z z =? f)%float = true.
Proof.
  unfold int_eq_float.
  destruct (float_exact_Z (float_of_Z z)) as [z'|]; [|split; [discriminate|intros [[=] _]]].
  rewrite andb_true_iff, Z.eqb_eq. split.
  - intros [-> H]; auto.
  - intros [[= ->] H]; auto.
Qed.

Lemma num_eq_sym (x y : pynum) : num_eq x y = num_eq y x.
Proof.
  destruct x, y; simpl; auto using Z.eqb_sym, feqb_sym.
Qed.

Lemma num_eq_trans (x y z : pynum) :
  num_eq x y = true -> num_eq y z = true -> num_eq x z = true.
Proof.
  destruct x as [a|f], y as [b|g], z as [c|h]; simpl;
    rewrite ?int_eq_float_true, ?Z.eqb_eq.
  - congruence.
  - intros ->; auto.
  - intros [Ha Hag] [Hc Hcg].
    assert (E : (float_of_Z a =? float_of_Z c)%float = true).
    { apply feqb_trans with g; [exact Hag|rewrite feqb_sym; exact Hcg]. }
    apply float_exact_Z_eqb in E. congruence.
  - intros [Ha Hag] Hgh; split; [exact Ha|apply feqb_trans with g; assumption].
  - intros H <-; exact H.
  - intros [Hb Hbf] [_ Hbh].
    apply feqb_trans with (float_of_Z b); [rewrite feqb_sym|]; assumption.
  - intros Hfg [Hc Hcg]; split; [exact Hc|].
    apply feqb_trans with g; [exact Hcg|rewrite feqb_sym; exact Hfg].
  - apply feqb_trans.
Qed.

Lemma py_eq_sym (a b : cell) : py_eq a b = py_eq b a.
Proof.
  destruct a, b; simpl; auto using num_eq_sym, String.eqb_sym;
    try apply Z.eqb_sym; try apply feqb_sym.
Qed.

Lemma py_eq_trans (a b c : cell) :
  py_eq a b = true -> py_eq b c = true -> py_eq a c = true.
Proof.
  destruct a as [x|x|x|s], b as [y|y|y|t], c as [z|z|z|u];
    try discriminate;
    try (apply (num_eq_trans (NInt _) (NInt _) (NInt _)));
    try (apply (num_eq_trans (NInt _) (NInt _) (NFloat _)));
    try (apply (num_eq_trans (NInt _) (NFloat _) (NInt _)));
    try (apply (num_eq_trans (NInt _) (NFloat _) (NFloat _)));
    try (apply (num_eq_trans (NFloat _) (NInt _) (NInt _)));
    try (apply (num_eq_trans (NFloat _) (NInt _) (NFloat _)));
    try (apply (num_eq_trans (NFloat _) (NFloat _) (NInt _)));
    try (apply (num_eq_trans (NFloat _) (NFloat _) (NFloat _))).
  simpl. rewrite !String.eqb_eq. congruence.
Qed.

Lemma py_eq_refl (a : cell) : isna a = false -> py_eq a a = true.
Proof.
  destruct a as [b|z|f|s]; simpl.
  - intros _; apply Z.eqb_refl.
  - intros _; apply Z.eqb_refl.
  - unfold is_nan; rewrite negb_false_iff; auto.
  - intros _; apply String.eqb_refl.
Qed.

Lemma py_eq_nan_l (a b : cell) : isna a = true -> py_eq a b = false.
Proof.
  destruct a as [x|x|f|s]; try discriminate. simpl; intros H.
  assert (N : forall g, (g =? f)%float = false) by (intro; apply feqb_nan_r, H).
  destruct b as [y|y|g|t]; simpl; auto.
  - unfold int_eq_float. destruct (float_exact_Z _); auto.
    rewrite N; apply andb_false_r.
  - unfold int_eq_float. destruct (float_exact_Z _); auto.
    rewrite N; apply andb_false_r.
  - rewrite feqb_sym; apply N.
Qed.

Lemma py_eq_nan_r (a b : cell) : isna b = true -> py_eq a b = false.
Proof. intros H; rewrite py_eq_sym; apply py_eq_nan_l, H. Qed.

(** ** Positional selection and assignment *)

Lemma select_cons {A} (m : bool) (mask : list bool) (x : A) (l : list A) :
  select (m :: mask) (x :: l) = if m then x :: select mask l else select mask l.
Proof. unfold select; simpl; destruct m; reflexivity. Qed.

Lemma select_nil_r {A} (mask : list bool) : select mask (@nil A) = [].
Proof. destruct mask; reflexivity. Qed.

Lemma select_map {A B} (f : A -> B) (mask : list bool) (l : list A) :
  select mask (map f l) = map f (select mask l).
Proof.
  revert l; induction mask as [|m ms IH]; intros [|x l]; try reflexivity.
  simpl map. rewrite !select_cons, IH. destruct m; reflexivity.
Qed.

Lemma select_length {A} (mask : list bool) (l : list A) :
  length mask = length l -> length (select mask l) = count_true mask.
Proof.
  revert l; induction mask as [|m ms IH]; intros [|x l]; simpl; try discriminate.
  - reflexivity.
  - intros [= H]. rewrite select_cons. unfold count_true in *; simpl.
    destruct m; simpl; rewrite IH; auto.
Qed.

Lemma put_select {A} (mask : list bool) (target : Series A) (w : list A) :
  length target = length mask -> length w = length mask ->
  put mask target (select mask w) =
  combine (index target) (choose mask w (values target)).
Proof.
  revert target w; induction mask as [|m ms IH]; intros [|[i x] t] [|y w];
    simpl; try discriminate; try reflexivity.
  intros [= Ht] [= Hw]. rewrite select_cons. destruct m.
  - simpl. rewrite IH; auto.
  - rewrite IH; auto.
Qed.

Lemma choose_length {A} (mask : list bool) (a b : list A) :
  length a = length mask -> length b = length mask ->
  length (choose mask a b) = length mask.
Proof.
  revert a b; induction mask as [|m ms IH]; intros [|x a] [|y b]; simpl;
    try discriminate; auto.
Qed.

Lemma choose_nth_error {A} (mask : list bool) (a b : list A) (i : nat)
  (m : bool) (x y : A) :
  nth_error mask i = Some m -> nth_error a i = Some x ->
  nth_error b i = Some y ->
  nth_error (choose mask a b) i = Some (if m then x else y).
Proof.
  revert mask a b; induction i as [|i IH]; intros [|m' ms] [|x' a] [|y' b];
    simpl; try discriminate.
  - intros [= ->] [= ->] [= ->]; reflexivity.
  - apply IH.
Qed.

Lemma iloc_mask_ok {A} (mask : list bool) (l : list A) :
  length mask = length l -> iloc_mask mask l = Ok (select mask l).
Proof. unfold iloc_mask; intros ->; rewrite Nat.eqb_refl; reflexivity. Qed.

Lemma iloc_set_select {A} (mask : list bool) (target : Series A) (w : list A) :
  length target = length mask -> length w = length mask ->
  iloc_set mask target (select mask w) =
  Ok (combine (index target) (choose mask w (values target))).
Proof.
  intros Ht Hw. unfold iloc_set.
  rewrite Ht, Nat.eqb_refl; simpl.
  rewrite select_length by auto. rewrite Nat.eqb_refl; simpl.
  rewrite put_select; auto.
Qed.

Lemma index_combine {A} (idx : list Z) (v : list A) :
  length v = length idx -> index (combine idx v) = idx.
Proof.
  revert v; induction idx as [|i idx IH]; intros [|x v]; simpl;
    try discriminate; auto.
  intros [= H]; unfold index in *; simpl; f_equal; auto.
Qed.

Lemma values_combine {A} (idx : list Z) (v : list A) :
  length v = length idx -> values (combine idx v) = v.
Proof.
  revert v; induction idx as [|i idx IH]; intros [|x v]; simpl;
    try discriminate; auto.
  intros [= H]; unfold values in *; simpl; f_equal; auto.
Qed.

Lemma range_index_length (n : nat) : length (range_index n) = n.
Proof. unfold range_index; rewrite length_map, length_seq; reflexivity. Qed.

(** ** Duration resolution *)

Section Resolution.

Context {L : Library}.

Lemma getitem_length (data : DataFrame) (c : string) (s : Series cell) :
  getitem data c = Ok s -> length s = len data.
Proof.
  unfold getitem. destruct (column_position c (columns data)); [|discriminate].
  intros [= <-]. unfold len; apply length_map.
Qed.

Lemma getitem_index (data : DataFrame) (c : string) (s : Series cell) :
  getitem data c = Ok s -> index s = frame_index data.
Proof.
  unfold getitem. destruct (column_position c (columns data)); [|discriminate].
  intros [= <-]. unfold index, frame_index. rewrite map_map; reflexivity.
Qed.

Lemma values_length {A} (s : Series A) : length (values s) = length s.
Proof. apply length_map. Qed.

Lemma index_length {A} (s : Series A) : length (index s) = length s.
Proof. apply length_map. Qed.

Lemma pd_to_datetime_inv (s : Series cell) (r : Series (option Z)) :
  pd_to_datetime s = Ok r ->
  exists ts, to_datetime (values s) = Ok ts /\ length ts = length s /\
             r = combine (index s) ts.
Proof.
  unfold pd_to_datetime. destruct (to_datetime (values s)) as [ts|] eqn:E;
    simpl; [|discriminate].
  intros [= <-]. exists ts. repeat split.
  rewrite (to_datetime_length _ _ E). apply values_length.
Qed.

Lemma sub_dt_days_values (a b : Series (option Z)) :
  values (sub_dt_days a b) =
  map (fun p => days_between (fst p) (snd p)) (combine (values a) (values b)).
Proof.
  unfold sub_dt_days, values. rewrite map_map.
  revert b; induction a as [|[i x] a IH]; intros [|[j y] b]; simpl; auto.
  f_equal; apply IH.
Qed.

(** What the date tier returns when it returns. *)
Lemma get_survival_days_from_dates_inv (data : DataFrame) (c : string)
  (s1 : Series (option Z)) (success : Series bool) :
  get_survival_days_from_dates data c = Ok (s1, success) ->
  has_column c data = true /\
  exists diag census dts cts,
    getitem data "diagnosis_date" = Ok diag /\
    to_datetime (values diag) = Ok dts /\
    getitem data c = Ok census /\
    to_datetime (values census) = Ok cts /\
    length dts = len data /\ length cts = len data /\
    values s1 = map (fun p => days_between (fst p) (snd p)) (combine cts dts) /\
    values success = map notna_days (values s1).
Proof.
  unfold get_survival_days_from_dates.
  destruct (negb (str_in c _)); [discriminate|].
  destruct (has_column c data); simpl; [|discriminate].
  destruct (getitem data "diagnosis_date") as [diag|] eqn:Ed; simpl; [|discriminate].
  destruct (pd_to_datetime diag) as [dd|] eqn:Edd; simpl; [|discriminate].
  destruct (getitem data c) as [census|] eqn:Ec; simpl; [|discriminate].
  destruct (pd_to_datetime census) as [cd|] eqn:Ecd; simpl; [|discriminate].
  intros [= <- <-]. split; [reflexivity|].
  apply pd_to_datetime_inv in Edd as (dts & Hd & Ld & ->).
  apply pd_to_datetime_inv in Ecd as (cts & Hc & Lc & ->).
  rewrite (getitem_length _ _ _ Ed) in Ld. rewrite (getitem_length _ _ _ Ec) in Lc.
  exists diag, census, dts, cts. repeat split; auto.
  - rewrite sub_dt_days_values, !values_combine; auto;
      rewrite index_length; [rewrite (getitem_length _ _ _ Ed)|rewrite (getitem_length _ _ _ Ec)]; auto.
  - unfold values. rewrite !map_map. reflexivity.
Qed.

Lemma astype_float_length (s : Series cell) (r : Series float) :
  astype_float s = Ok r -> length r = length s.
Proof. apply mapM_length. Qed.

(** What the day-count tier returns when it returns: the column it reads is
    the vital one, whatever column it was asked for. *)
Lemma get_survival_days_from_days_inv (data : DataFrame) (c : string)
  (s2 : Series float) (success : Series bool) :
  get_survival_days_from_days data c = Ok (s2, success) ->
  has_column c data = true /\
  exists col,
    getitem data "vital_status_change_day" = Ok col /\
    astype_float col = Ok s2 /\ length s2 = len data.
Proof.
  unfold get_survival_days_from_days.
  destruct (negb (str_in c _)); [discriminate|].
  destruct (has_column c data); simpl; [|discriminate].
  destruct (getitem data "vital_status_change_day") as [col|] eqn:Ec; simpl;
    [|discriminate].
  destruct (astype_float col) as [r|] eqn:Er; simpl; [|discriminate].
  intros [= <- <-]. split; [reflexivity|]. exists col; repeat split; auto.
  rewrite (astype_float_length _ _ Er). apply (getitem_length _ _ _ Ec).
Qed.

Lemma index_const {A} (x : A) (idx : list Z) :
  index (map (fun i => (i, x)) idx) = idx.
Proof. unfold index; rewrite map_map; simpl; apply map_id. Qed.

Lemma values_const {A} (x : A) (idx : list Z) :
  values (map (fun i => (i, x)) idx) = map (fun _ => x) idx.
Proof. unfold values; rewrite map_map; reflexivity. Qed.

(** The two masked assignments of [get_survival_days] never raise: the result
    takes, position by position, the date-tier day count where there is one
    and the day-tier value elsewhere. *)
Lemma get_survival_days_eq (data : DataFrame) (type : string) :
  get_survival_days data type =
  ('(date_col, day_col) <- get_survival_columns type ;;
   '(s1, success) <- get_survival_days_from_dates data date_col ;;
   '(s2, _) <- get_survival_days_from_days data day_col ;;
   Ok (combine (range_index (len data))
         (choose (map negb (values success)) (values s2)
            (choose (values success) (map days_to_float (values s1))
               (map (fun _ => nan) (range_index (len data))))))).
Proof.
  unfold get_survival_days.
  destruct (get_survival_columns type) as [[date_col day_col]|]; simpl; auto.
  destruct (get_survival_days_from_dates data date_col) as [[s1 success]|] eqn:E1;
    simpl; auto.
  destruct (get_survival_days_from_dates_inv _ _ _ _ E1)
    as (_ & diag & census & dts & cts & _ & _ & _ & _ & Ld & Lc & Hs1 & Hsucc).
  assert (Ls1 : length (values s1) = len data).
  { rewrite Hs1, length_map, length_combine, Lc, Ld. apply Nat.min_id. }
  assert (Lm : length (values success) = len data).
  { rewrite Hsucc, length_map; exact Ls1. }
  rewrite iloc_mask_ok by congruence. simpl.
  rewrite <- select_map.
  rewrite iloc_set_select;
    [|rewrite length_map, range_index_length; congruence
     |rewrite length_map; congruence].
  simpl. rewrite index_const, values_const.
  destruct (get_survival_days_from_days data day_col) as [[s2 succ2]|] eqn:E2;
    simpl; auto.
  destruct (get_survival_days_from_days_inv _ _ _ _ E2) as (_ & col & _ & _ & L2).
  rewrite iloc_mask_ok by (rewrite length_map, Lm, values_length; congruence).
  simpl.
  assert (Lr : length (map (fun _ : Z => nan) (range_index (len data))) = len data)
    by (rewrite length_map; apply range_index_length).
  assert (Lc1 : length (choose (values success) (map days_to_float (values s1))
                          (map (fun _ : Z => nan) (range_index (len data)))) = len data).
  { rewrite choose_length; rewrite ?length_map, ?range_index_length; congruence. }
  assert (Lx : length (choose (values success) (map days_to_float (values s1))
                          (map (fun _ : Z => nan) (range_index (len data))))
               = length (range_index (len data)))
    by (rewrite range_index_length; exact Lc1).
  rewrite iloc_set_select.
  - rewrite index_combine, values_combine by exact Lx. reflexivity.
  - rewrite length_combine, range_index_length, Lc1, length_map, Lm.
    apply Nat.min_id.
  - rewrite length_map, Lm, values_length; congruence.
Qed.

Lemma nth_error_ex {A} (l : list A) (i : nat) :
  (i < length l)%nat -> exists x, nth_error l i = Some x.
Proof.
  intros H. destruct (nth_error l i) eqn:E; eauto.
  apply nth_error_None in E. lia.
Qed.

Lemma nth_error_lt {A} (l : list A) (i : nat) (x : A) :
  nth_error l i = Some x -> (i < length l)%nat.
Proof. intros H; apply nth_error_Some; congruence. Qed.

Lemma nth_error_combine {A B} (a : list A) (b : list B) (i : nat) (x : A) (y : B) :
  nth_error a i = Some x -> nth_error b i = Some y ->
  nth_error (combine a b) i = Some (x, y).
Proof.
  revert a b; induction i as [|i IH]; intros [|x' a] [|y' b]; simpl;
    try discriminate.
  - intros [= ->] [= ->]; reflexivity.
  - apply IH.
Qed.

Lemma mapM_nth_error {A B} (f : A -> result B) (l : list A) (r : list B)
  (i : nat) (x : A) :
  mapM f l = Ok r -> nth_error l i = Some x ->
  exists y, f x = Ok y /\ nth_error r i = Some y.
Proof.
  revert r i; induction l as [|a l IH]; intros r i; simpl.
  - destruct i; discriminate.
  - destruct (f a) as [b|] eqn:Ea; simpl; [|discriminate].
    destruct (mapM f l) as [bs|]; simpl; [|discriminate].
    intros [= <-]. destruct i as [|i]; simpl.
    + intros [= <-]; eauto.
    + apply IH; reflexivity.
Qed.

Lemma astype_float_nth (col : Series cell) (days : Series float) (i : nat)
  (idx : Z) (c : cell) :
  astype_float col = Ok days -> nth_error col i = Some (idx, c) ->
  exists f, to_float c = Ok f /\ nth_error days i = Some (idx, f).
Proof.
  intros H Hi. destruct (mapM_nth_error _ _ _ _ _ H Hi) as (y & Hy & Hn).
  simpl in Hy. destruct (to_float c) as [f|]; simpl in Hy; [|discriminate].
  injection Hy as <-. eauto.
Qed.

Lemma get_survival_columns_vital :
  get_survival_columns "vital" =
  Ok ("vital_status_change_date", "vital_status_change_day").
Proof. reflexivity. Qed.

Lemma get_survival_columns_inv (type date_col day_col : string) :
  get_survival_columns type = Ok (date_col, day_col) ->
  (type = "progress" /\ date_col = "progression_status_change_date" /\
   day_col = "progression_status_change_day") \/
  (type = "vital" /\ date_col = "vital_status_change_date" /\
   day_col = "vital_status_change_day").
Proof.
  unfold get_survival_columns, str_in; simpl.
  destruct (String.eqb_spec type "progress") as [->|Hp]; simpl.
  - intros [= <- <-]; auto.
  - destruct (String.eqb_spec type "vital") as [->|Hv]; simpl; [|discriminate].
    intros [= <- <-]; auto.
Qed.

(** Position by position, what [get_survival_days] returns: the date-tier day
    count where both dates parse, the value of the column the day tier reads
    elsewhere. *)
Lemma get_survival_days_inv (data : DataFrame) (type : string) (s : Series float) :
  get_survival_days data type = Ok s ->
  exists date_col day_col diag census dts cts col days,
    get_survival_columns type = Ok (date_col, day_col) /\
    has_column date_col data = true /\ has_column day_col data = true /\
    getitem data "diagnosis_date" = Ok diag /\
    to_datetime (values diag) = Ok dts /\
    getitem data date_col = Ok census /\
    to_datetime (values census) = Ok cts /\
    getitem data "vital_status_change_day" = Ok col /\
    astype_float col = Ok days /\
    index s = range_index (len data) /\
    forall i c d f,
      nth_error cts i = Some c -> nth_error dts i = Some d ->
      nth_error (values days) i = Some f ->
      nth_error (values s) i =
      Some (match days_between c d with
            | Some z => float_of_Z z
            | None => f
            end).
Proof.
  rewrite get_survival_days_eq.
  destruct (get_survival_columns type) as [[date_col day_col]|] eqn:Ecols;
    simpl; [|discriminate].
  destruct (get_survival_days_from_dates data date_col) as [[s1 success]|] eqn:E1;
    simpl; [|discriminate].
  destruct (get_survival_days_from_days data day_col) as [[s2 succ2]|] eqn:E2;
    simpl; [|discriminate].
  intros [= <-].
  destruct (get_survival_days_from_dates_inv _ _ _ _ E1)
    as (Hdate & diag & census & dts & cts & Hd & Hdts & Hc & Hcts & Ld & Lc & Hs1 & Hsucc).
  destruct (get_survival_days_from_days_inv _ _ _ _ E2) as (Hday & col & Hcol & Hdays & L2).
  exists date_col, day_col, diag, census, dts, cts, col, s2.
  assert (Ls1 : length (values s1) = len data).
  { rewrite Hs1, length_map, length_combine, Lc, Ld. apply Nat.min_id. }
  assert (Lm : length (values success) = len data).
  { rewrite Hsucc, length_map; exact Ls1. }
  assert (Lch : length (choose (map negb (values success)) (values s2)
                   (choose (values success) (map days_to_float (values s1))
                      (map (fun _ : Z => nan) (range_index (len data)))))
                = length (range_index (len data))).
  { rewrite range_index_length. rewrite choose_length.
    - rewrite length_map; exact Lm.
    - rewrite values_length, length_map, Lm; exact L2.
    - rewrite choose_length; rewrite !length_map, ?range_index_length; congruence. }
  repeat split; auto.
  - apply index_combine; exact Lch.
  - intros i c d f Hic Hid Hif. rewrite values_combine by exact Lch.
    assert (Hi : (i < len data)%nat) by (rewrite <- Lc; eapply nth_error_lt; eauto).
    assert (Hdd : nth_error (values s1) i = Some (days_between c d)).
    { pose proof (nth_error_combine _ _ _ _ _ Hic Hid) as Hcd.
      apply (map_nth_error (fun p => days_between (fst p) (snd p))) in Hcd.
      rewrite Hs1; exact Hcd. }
    assert (Hm : nth_error (values success) i = Some (notna_days (days_between c d))).
    { rewrite Hsucc. apply (map_nth_error notna_days _ _ Hdd). }
    destruct (nth_error_ex (range_index (len data)) i) as (j & Hj);
      [rewrite range_index_length; exact Hi|].
    rewrite (choose_nth_error _ _ _ _ _ _ _
               (map_nth_error negb _ _ Hm) Hif
               (choose_nth_error _ _ _ _ _ _ _ Hm
                  (map_nth_error days_to_float _ _ Hdd)
                  (map_nth_error (fun _ => nan) _ _ Hj))).
    destruct (days_between c d); reflexivity.
Qed.
(** C3, as amended.  On every group subset on which duration resolution
    returns, the date column and the day column of the analysis type are both
    in the table; a subject whose diagnosis date and follow-up date both parse
    gets their difference in whole days, whatever its day-count cell holds;
    and under [vital] the whole day column coerces to float and a subject
    whose date pair fails gets its own [vital_status_change_day] value,
    coerced to float. *)
Theorem duration_fallback (data : DataFrame) (type : string) (s : Series float) :
  get_survival_days data type = Ok s ->
  exists date_col day_col diag census dts cts,
    get_survival_columns type = Ok (date_col, day_col) /\
    has_column date_col data = true /\ has_column day_col data = true /\
    getitem data "diagnosis_date" = Ok diag /\
    to_datetime (values diag) = Ok dts /\
    getitem data date_col = Ok census /\
    to_datetime (values census) = Ok cts /\
    index s = range_index (len data) /\
    (forall i tc td,
        nth_error cts i = Some (Some tc) -> nth_error dts i = Some (Some td) ->
        nth_error (values s) i =
        Some (float_of_Z ((tc - td) / nanoseconds_per_day))) /\
    (type = "vital" ->
     exists col days,
       getitem data day_col = Ok col /\ astype_float col = Ok days /\
       forall i idx x c d,
         nth_error col i = Some (idx, x) ->
         nth_error cts i = Some c -> nth_error dts i = Some d ->
         c = None \/ d = None ->
         exists f, to_float x = Ok f /\ nth_error (values s) i = Some f).
Proof.
  intros H.
  destruct (get_survival_days_inv _ _ _ H)
    as (date_col & day_col & diag & census & dts & cts & col & days & Hcols &
        Hdate & Hday & Hd & Hdts & Hc & Hcts & Hcol & Hdays & Hidx & Hnth).
  exists date_col, day_col, diag, census, dts, cts.
  repeat (split; [assumption|]). split.
  - intros i tc td Hic Hid.
    assert (Li : (i < length (values days))%nat).
    { rewrite values_length, (astype_float_length _ _ Hdays),
        (getitem_length _ _ _ Hcol), <- (getitem_length _ _ _ Hc),
        <- values_length, <- (to_datetime_length _ _ Hcts).
      eapply nth_error_lt; eassumption. }
    destruct (nth_error_ex _ _ Li) as (f & Hf).
    rewrite (Hnth _ _ _ _ Hic Hid Hf). reflexivity.
  - intros ->. vm_compute in Hcols. injection Hcols as <- <-.
    exists col, days. repeat split; auto.
    intros i idx x c d Hx Hic Hid Hnone.
    destruct (astype_float_nth _ _ _ _ _ Hdays Hx) as (f & Hf & Hn).
    exists f; split; [exact Hf|].
    assert (Hv : nth_error (values days) i = Some f).
    { unfold values. rewrite (map_nth_error snd _ _ Hn). reflexivity. }
    rewrite (Hnth _ _ _ _ Hic Hid Hv).
    destruct Hnone as [-> | ->]; [reflexivity|destruct c; reflexivity].
Qed.

End Resolution.

(** The fallback at [fallback_table]: ten days from the dates of the first
    subject, 42.0 from the day count of the second. *)
Lemma duration_fallback_witness :
  get_survival_days (L := iso_library) fallback_table "vital"
  = Ok [(0, 10%float); (1, 42%float)] /\
  has_column "vital_status_change_day" fallback_table = true.
Proof.
  assert (H : get_survival_days (L := iso_library) fallback_table "vital"
              = Ok [(0, 10%float); (1, 42%float)]) by (vm_compute; reflexivity).
  split; [exact H|].
  destruct (duration_fallback (L := iso_library) _ _ _ H)
    as (date_col & day_col & _ & _ & _ & _ & Hcols & _ & Hday & _).
  vm_compute in Hcols. injection Hcols as <- <-. exact Hday.
Defined.

(** C3 fails as stated: the date tier succeeds for the only subject, and yet
    the day-count tier is run, finds no day column and the resolution raises
    instead of returning the ten days. *)
Lemma day_tier_consulted_after_date_success :
  (exists s1, get_survival_days_from_dates (L := iso_library) dates_only_table
                "vital_status_change_date" = Ok ([(0, Some 10)], s1) /\
              values s1 = [true]) /\
  get_survival_days (L := iso_library) dates_only_table "vital"
  = Raise (ValueError "Column vital_status_change_day not in data").
Proof.
  split; [eexists; split|]; vm_compute; reflexivity.
Qed.

(** C1, at the failing input: under [progress] the day tier is asked for
    [progression_status_change_day], where the subject has 10, and the
    resolved duration is 99.0, the value of [vital_status_change_day]. *)
Theorem day_tier_reads_vital_column_under_progress :
  get_survival_columns "progress"
  = Ok ("progression_status_change_date", "progression_status_change_day") /\
  getitem progress_table "progression_status_change_day" = Ok [(0, CInt 10)] /\
  getitem progress_table "vital_status_change_day" = Ok [(0, CInt 99)] /\
  get_survival_days (L := iso_library) progress_table "progress"
  = Ok [(0, 99%float)].
Proof. repeat split; vm_compute; reflexivity. Qed.

(** ** Event classification *)

Lemma get_exit_status_eq (data : DataFrame) (type : string) :
  type = "vital" \/ type = "progress" ->
  get_exit_status data type =
  (col <- getitem data (status_column type) ;;
   Ok (map (fun p => (fst p, py_eq (snd p) (CBool (event_value type)))) col)).
Proof. intros [-> | ->]; reflexivity. Qed.

Lemma get_exit_status_type (data : DataFrame) (type : string) (es : Series bool) :
  get_exit_status data type = Ok es -> type = "vital" \/ type = "progress".
Proof.
  unfold get_exit_status, str_in; simpl.
  destruct (String.eqb_spec type "progress") as [->|_]; auto.
  destruct (String.eqb_spec type "vital") as [->|_]; auto.
  discriminate.
Qed.

(** What is equal to [False] in Python: [False] itself, the integer 0 and
    the floats 0.0 and -0.0. *)
Lemma py_eq_False (c : cell) :
  py_eq c (CBool false) = true <->
  c = CBool false \/ c = CInt 0 \/
  exists f, c = CFloat f /\ (0 =? f)%float = true.
Proof.
  destruct c as [b|z|f|s]; simpl.
  - destruct b; simpl; split; auto.
    + discriminate.
    + intros [[=]|[[=]|(f & [=] & _)]].
  - rewrite Z.eqb_eq. split.
    + intros ->; auto.
    + intros [[=]|[[= ->]|(f & [=] & _)]]; reflexivity.
  - change (int_eq_float 0 f) with ((0 =? f)%float). split.
    + intros H; right; right; eauto.
    + intros [[=]|[[=]|(g & [= <-] & H)]]; exact H.
  - split; [discriminate|]. intros [[=]|[[=]|(f & [=] & _)]].
Qed.

(** C5.  The event indicator of a subject is true exactly when its status
    cell is equal to [False] under [vital], and exactly when it is equal to
    [True] under [progress]; the classifier returns whenever the status
    column is in the table. *)
Theorem exit_status_classifier (data : DataFrame) (type : string)
  (col : Series cell) :
  type = "vital" \/ type = "progress" ->
  getitem data (status_column type) = Ok col ->
  exists es,
    get_exit_status data type = Ok es /\ index es = index col /\
    forall i idx c,
      nth_error col i = Some (idx, c) ->
      exists e,
        nth_error es i = Some (idx, e) /\
        (type = "vital" -> (e = true <-> py_eq c (CBool false) = true)) /\
        (type = "progress" -> (e = true <-> py_eq c (CBool true) = true)).
Proof.
  intros Ht Hcol. rewrite (get_exit_status_eq _ _ Ht), Hcol. simpl.
  eexists; split; [reflexivity|]. split.
  - unfold index; rewrite map_map; reflexivity.
  - intros i idx c Hi.
    exists (py_eq c (CBool (event_value type))). split.
    + rewrite (map_nth_error _ _ _ Hi); reflexivity.
    + split; intros ->; reflexivity.
Qed.

(** The classifier at [status_table], under both analysis types. *)
Lemma exit_status_classifier_witness :
  get_exit_status status_table "vital" = Ok [(0, true); (1, false); (2, false)] /\
  get_exit_status status_table "progress"
  = Ok [(0, true); (1, false); (2, false)].
Proof.
  split.
  - destruct (exit_status_classifier status_table "vital"
                [(0, CBool false); (1, CBool true); (2, NaN)]
                (or_introl eq_refl) eq_refl) as (es & H & _).
    rewrite H. vm_compute in H. injection H as <-. reflexivity.
  - destruct (exit_status_classifier status_table "progress"
                [(0, CBool true); (1, CBool false); (2, NaN)]
                (or_intror eq_refl) eq_refl) as (es & H & _).
    rewrite H. vm_compute in H. injection H as <-. reflexivity.
Defined.

(** C10.  A subject whose status cell is missing is classified as censored
    under either analysis type, and the classifier returns. *)
Theorem missing_status_is_censored (data : DataFrame) (type : string)
  (col : Series cell) :
  type = "vital" \/ type = "progress" ->
  getitem data (status_column type) = Ok col ->
  exists es,
    get_exit_status data type = Ok es /\
    forall i idx c,
      nth_error col i = Some (idx, c) -> isna c = true ->
      nth_error es i = Some (idx, false).
Proof.
  intros Ht Hcol. rewrite (get_exit_status_eq _ _ Ht), Hcol. simpl.
  eexists; split; [reflexivity|].
  intros i idx c Hi Hna.
  rewrite (map_nth_error _ _ _ Hi). simpl.
  rewrite (py_eq_nan_l _ _ Hna). reflexivity.
Qed.

(** The subject of [status_table] without a status is censored. *)
Lemma missing_status_is_censored_witness :
  exists es,
    get_exit_status status_table "vital" = Ok es /\
    nth_error es 2 = Some (2, false).
Proof.
  destruct (missing_status_is_censored status_table "vital"
              [(0, CBool false); (1, CBool true); (2, NaN)]
              (or_introl eq_refl) eq_refl) as (es & H & Hna).
  exists es. split; [exact H|].
  apply (Hna 2%nat 2 NaN); reflexivity.
Defined.

(** ** Grouping *)

Lemma key_eq_refl (a : cell) : key_eq a a = true.
Proof.
  unfold key_eq. destruct (isna a) eqn:E; [reflexivity|].
  simpl. apply py_eq_refl, E.
Qed.

Lemma key_eq_sym (a b : cell) : key_eq a b = key_eq b a.
Proof. unfold key_eq. rewrite andb_comm, py_eq_sym. reflexivity. Qed.

Lemma key_eq_trans (a b c : cell) :
  key_eq a b = true -> key_eq b c = true -> key_eq a c = true.
Proof.
  unfold key_eq. rewrite !orb_true_iff, !andb_true_iff.
  intros [[Ha Hb]|Hab] [[Hb' Hc]|Hbc].
  - left; auto.
  - rewrite (py_eq_nan_l _ _ Hb) in Hbc; discriminate.
  - rewrite (py_eq_nan_r _ _ Hb') in Hab; discriminate.
  - right; eapply py_eq_trans; eassumption.
Qed.

Lemma key_eq_notna (a b : cell) : isna a = false -> key_eq a b = py_eq a b.
Proof. unfold key_eq; intros ->; reflexivity. Qed.

Lemma existsb_key_false (seen : list cell) (x : cell) :
  existsb (fun k => key_eq k x) seen = false ->
  forall s, In s seen -> key_eq s x = false.
Proof.
  intros H s Hs. destruct (key_eq s x) eqn:E; [|reflexivity].
  assert (existsb (fun k => key_eq k x) seen = true)
    by (apply existsb_exists; eauto).
  congruence.
Qed.

Lemma StronglySorted_map_S (ps : list nat) :
  StronglySorted lt ps -> StronglySorted lt (map S ps).
Proof.
  induction 1 as [|p ps Hs IH Hall]; simpl; constructor; auto.
  rewrite Forall_map. revert Hall; apply Forall_impl; intros; lia.
Qed.

Lemma is_first_shift (x : cell) (t : list cell) (p : nat) (u : cell) :
  key_eq x u = false -> is_first t p u -> is_first (x :: t) (S p) u.
Proof.
  intros Hx [Hn Hb]. split; [exact Hn|].
  intros [|j] c Hj; simpl.
  - intros [= <-]; exact Hx.
  - apply Hb; lia.
Qed.

(** [unique] lists the values at their first occurrences, from left to right. *)
Lemma unique_from_positions (l seen : list cell) :
  exists ps,
    StronglySorted lt ps /\
    Forall2 (fun p u => is_first l p u /\
                        forall s, In s seen -> key_eq s u = false)
            ps (unique_from seen l).
Proof.
  revert seen; induction l as [|x t IH]; intros seen; simpl.
  - exists []; split; constructor.
  - destruct (existsb (fun k => key_eq k x) seen) eqn:E.
    + destruct (IH seen) as (ps & Hs & Hf).
      exists (map S ps). split; [apply StronglySorted_map_S, Hs|].
      apply existsb_exists in E as (s & Hin & Hsx).
      clear Hs. induction Hf as [|p u ps us [Hp Hseen] _ IHf]; simpl;
        constructor; auto.
      split; [|exact Hseen].
      apply is_first_shift; [|exact Hp].
      destruct (key_eq x u) eqn:Exu; [|reflexivity].
      rewrite <- (Hseen s Hin). symmetry.
      apply key_eq_trans with x; assumption.
    + destruct (IH (x :: seen)) as (ps & Hs & Hf).
      exists (0%nat :: map S ps). split.
      * constructor; [apply StronglySorted_map_S, Hs|].
        rewrite Forall_map. apply Forall_forall; intros; lia.
      * constructor.
        -- split; [|apply existsb_key_false, E].
           split; [reflexivity|]. intros j c Hj; lia.
        -- clear Hs. induction Hf as [|p u ps us [Hp Hseen] _ IHf]; simpl;
             constructor; auto.
           split.
           ++ apply is_first_shift; [|exact Hp]. apply Hseen; left; reflexivity.
           ++ intros s Hs; apply Hseen; right; exact Hs.
Qed.

Lemma unique_from_distinct (l seen : list cell) :
  distinct_keys (unique_from seen l) /\
  forall u, In u (unique_from seen l) ->
            forall s, In s seen -> key_eq s u = false.
Proof.
  revert seen; induction l as [|x t IH]; intros seen; simpl.
  - split; [exact I|intros u []].
  - destruct (existsb (fun k => key_eq k x) seen) eqn:E.
    + apply IH.
    + destruct (IH (x :: seen)) as [Hd Hs]. split.
      * split; [|exact Hd]. intros v Hv. apply (Hs v Hv); left; reflexivity.
      * intros u [<-|Hu] s Hin.
        -- eapply existsb_key_false; eassumption.
        -- apply (Hs u Hu); right; exact Hin.
Qed.

Lemma unique_from_cover (l seen : list cell) (c : cell) :
  In c l ->
  (exists s, In s seen /\ key_eq s c = true) \/
  (exists u, In u (unique_from seen l) /\ key_eq u c = true).
Proof.
  revert seen; induction l as [|x t IH]; intros seen; simpl; [intros []|].
  intros [<-|Hc].
  - destruct (existsb (fun k => key_eq k x) seen) eqn:E.
    + left. apply existsb_exists in E. exact E.
    + right. exists x; split; [left; reflexivity|apply key_eq_refl].
  - destruct (existsb (fun k => key_eq k x) seen) eqn:E.
    + apply IH, Hc.
    + destruct (IH (x :: seen) Hc) as [(s & [<-|Hs] & Hk)|(u & Hu & Hk)].
      * right. exists x; split; [left; reflexivity|exact Hk].
      * left; eauto.
      * right. exists u; split; [right; exact Hu|exact Hk].
Qed.

Lemma unique_from_incl (l seen : list cell) (u : cell) :
  In u (unique_from seen l) -> In u l.
Proof.
  revert seen; induction l as [|x t IH]; intros seen; simpl; auto.
  destruct (existsb (fun k => key_eq k x) seen).
  - intros H; right; eapply IH; eauto.
  - intros [<-|H]; [left; reflexivity|right; eapply IH; eauto].
Qed.

Lemma select_subseq {A} (mask : list bool) (l : list A) :
  subseq (select mask l) l.
Proof.
  revert mask; induction l as [|x l IH]; intros [|m mask]; simpl.
  - constructor.
  - rewrite select_nil_r; constructor.
  - unfold select; simpl. constructor. apply (IH []).
  - rewrite select_cons. destruct m; constructor; apply IH.
Qed.

Lemma select_all {A} (mask : list bool) (l : list A) :
  length mask = length l -> Forall (fun m => m = true) mask ->
  select mask l = l.
Proof.
  revert l; induction mask as [|m mask IH]; intros [|x l]; simpl;
    try discriminate; auto.
  intros [= H] Hall. inversion Hall as [|? ? -> Hall']; subst.
  rewrite select_cons. f_equal; auto.
Qed.

Lemma filter_none {A} (f : A -> bool) (l : list A) :
  (forall x, In x l -> f x = false) -> filter f l = [].
Proof.
  induction l as [|x l IH]; simpl; auto.
  intros H. rewrite (H x (or_introl eq_refl)). apply IH; auto.
Qed.

(** Exactly one of pairwise distinct keys is equal to a value that has a key
    among them. *)
Lemma one_key (keys : list cell) (c : cell) :
  distinct_keys keys ->
  (exists u, In u keys /\ key_eq u c = true) ->
  length (filter (fun k => key_eq c k) keys) = 1%nat.
Proof.
  induction keys as [|k keys IH]; simpl.
  - intros _ (u & [] & _).
  - intros [Hk Hd] (u & Hu & Huc).
    destruct (key_eq c k) eqn:E; simpl.
    + f_equal. rewrite filter_none; [reflexivity|]. intros v Hv.
      destruct (key_eq c v) eqn:Ev; [|reflexivity].
      rewrite <- (Hk v Hv). symmetry.
      apply key_eq_trans with c; [rewrite key_eq_sym|]; assumption.
    + apply IH; [exact Hd|]. destruct Hu as [<-|Hu].
      * rewrite key_eq_sym in Huc; congruence.
      * eauto.
Qed.

Lemma concat_one_key {A} (g : cell -> bool) (F : cell -> list A) (r : A)
  (keys : list cell) :
  (length (filter g keys) = 0%nat ->
   concat (map (fun k => if g k then r :: F k else F k) keys)
   = concat (map F keys)) /\
  (length (filter g keys) = 1%nat ->
   Permutation (concat (map (fun k => if g k then r :: F k else F k) keys))
               (r :: concat (map F keys))).
Proof.
  induction keys as [|k keys [IH0 IH1]]; simpl.
  - split; [reflexivity|discriminate].
  - destruct (g k); simpl.
    + split; [discriminate|]. intros [= H]. rewrite (IH0 H). reflexivity.
    + split.
      * intros H; rewrite (IH0 H); reflexivity.
      * intros H. etransitivity.
        -- apply Permutation_app_head, IH1, H.
        -- symmetry; apply Permutation_middle.
Qed.

(** Masks of which exactly one is true at every position cut a list into
    pieces that together are the list. *)
Lemma select_partition {A} (keys labels : list cell) (rws : list A) :
  length labels = length rws ->
  (forall c, In c labels ->
             length (filter (fun k => py_eq c k) keys) = 1%nat) ->
  Permutation
    (concat (map (fun k => select (map (fun c => py_eq c k) labels) rws) keys))
    rws.
Proof.
  revert rws; induction labels as [|c cs IH]; intros [|r rs]; simpl;
    try discriminate.
  - intros _ _. induction keys; simpl; auto.
  - intros [= Hlen] Hone.
    assert (E : map (fun k => select (py_eq c k :: map (fun c0 => py_eq c0 k) cs)
                                (r :: rs)) keys
                = map (fun k => if py_eq c k
                                then r :: select (map (fun c0 => py_eq c0 k) cs) rs
                                else select (map (fun c0 => py_eq c0 k) cs) rs)
                      keys).
    { apply map_ext; intros k. apply select_cons. }
    rewrite E.
    etransitivity.
    + apply (concat_one_key (fun k => py_eq c k)). apply Hone; left; reflexivity.
    + apply perm_skip, IH; auto.
Qed.

Lemma one_key_position (keys : list cell) (c : cell) :
  distinct_keys keys ->
  (exists u, In u keys /\ key_eq u c = true) ->
  exists k u,
    nth_error keys k = Some u /\ key_eq c u = true /\
    forall k' u', nth_error keys k' = Some u' -> key_eq c u' = true -> k' = k.
Proof.
  induction keys as [|a keys IH]; simpl.
  - intros _ (u & [] & _).
  - intros [Ha Hd] (u & Hu & Huc).
    destruct (key_eq c a) eqn:E.
    + exists 0%nat, a. repeat split; auto.
      intros [|k'] u'; simpl; auto. intros Hn Hcu.
      apply nth_error_In in Hn.
      assert (X : key_eq a u' = true)
        by (apply key_eq_trans with c; [rewrite key_eq_sym; exact E|exact Hcu]).
      rewrite (Ha u' Hn) in X; discriminate.
    + destruct Hu as [<-|Hu]; [rewrite key_eq_sym in Huc; congruence|].
      destruct (IH Hd (ex_intro _ u (conj Hu Huc))) as (k & v & Hk & Hcv & Huniq).
      exists (S k), v. repeat split; auto.
      intros [|k'] u'; simpl.
      * intros [= <-] H; congruence.
      * intros Hn Hcu. f_equal. eapply Huniq; eassumption.
Qed.

Lemma mapM_ok {A B} (f : A -> result B) (g : A -> B) (l : list A) :
  (forall x, In x l -> f x = Ok (g x)) -> mapM f l = Ok (map g l).
Proof.
  induction l as [|x l IH]; simpl; auto.
  intros H. rewrite (H x (or_introl eq_refl)). simpl.
  rewrite IH; auto.
Qed.

Lemma get_labels_length (data : DataFrame) (label : Series cell) :
  get_labels data = Ok label -> length label = len data.
Proof.
  unfold get_labels. destruct (has_column "label" data); simpl.
  - apply getitem_length.
  - intros [= <-]. rewrite length_map. apply range_index_length.
Qed.

(** The masks of [get_subsets] are as long as the table as soon as the label
    Series is, and then no selection raises. *)
Lemma get_subsets_eq (data : DataFrame) (label : Series cell) :
  length label = len data ->
  get_subsets data label =
  Ok (map (subset_of data label) (unique (values label)), unique (values label)).
Proof.
  intros Hlen. unfold get_subsets.
  rewrite (mapM_ok _ (subset_of data label)); [reflexivity|].
  intros l _. unfold iloc_rows.
  rewrite iloc_mask_ok; [reflexivity|].
  unfold eq_mask. rewrite length_map, values_length. exact Hlen.
Qed.

Lemma unique_from_seen (seen l : list cell) :
  (forall x, In x l -> existsb (fun k => key_eq k x) seen = true) ->
  unique_from seen l = [].
Proof.
  induction l as [|x l IH]; simpl; auto.
  intros H. rewrite (H x (or_introl eq_refl)). apply IH; auto.
Qed.

Lemma unique_constant (c : cell) (idx : list Z) :
  idx <> [] -> unique (map (fun _ => c) idx) = [c].
Proof.
  destruct idx as [|i idx]; [congruence|]. intros _.
  unfold unique; simpl. f_equal. apply unique_from_seen.
  intros x Hx. apply in_map_iff in Hx as (j & <- & _).
  simpl. rewrite key_eq_refl. reflexivity.
Qed.

(** C6, as amended.  When no label is missing, grouping partitions the
    subjects: the labels come in order of first occurrence, each subset holds
    the rows of its label in their original order, every subject is selected
    by exactly one label, and the subsets together are the table; a table
    with no label column and at least one row gives the single group "0"
    with all subjects. *)
Theorem grouping_partitions (data : DataFrame) (label : Series cell) :
  get_labels data = Ok label ->
  Forall (fun c => isna c = false) (values label) ->
  exists subsets uniq,
    get_subsets data label = Ok (subsets, uniq) /\
    length subsets = length uniq /\
    (exists ps, StronglySorted lt ps /\
                Forall2 (is_first (values label)) ps uniq) /\
    (forall k d u,
        nth_error subsets k = Some d -> nth_error uniq k = Some u ->
        columns d = columns data /\
        rows d = select (eq_mask label u) (rows data) /\
        subseq (rows d) (rows data)) /\
    (forall i c,
        nth_error (values label) i = Some c ->
        exists k u,
          nth_error uniq k = Some u /\ py_eq c u = true /\
          forall k' u',
            nth_error uniq k' = Some u' -> py_eq c u' = true -> k' = k) /\
    Permutation (concat (map rows subsets)) (rows data) /\
    (has_column "label" data = false -> rows data <> [] ->
     subsets = [data] /\ uniq = [CStr "0"]).
Proof.
  intros Hlab Hna.
  pose proof (get_labels_length _ _ Hlab) as Hlen.
  exists (map (subset_of data label) (unique (values label))),
         (unique (values label)).
  destruct (unique_from_distinct (values label) []) as [Hdist _].
  assert (Hkey : forall c, In c (values label) ->
                 exists u, In u (unique (values label)) /\ key_eq u c = true).
  { intros c Hc.
    destruct (unique_from_cover (values label) [] c Hc) as [(s & [] & _)|H];
      exact H. }
  assert (Hpy : forall c k, In c (values label) -> key_eq c k = py_eq c k).
  { intros c k Hc. apply key_eq_notna.
    rewrite Forall_forall in Hna. apply Hna, Hc. }
  split; [apply get_subsets_eq, Hlen|].
  split; [apply length_map|].
  split.
  { destruct (unique_from_positions (values label) []) as (ps & Hs & Hf).
    exists ps; split; [exact Hs|].
    revert Hf; apply Forall2_impl; intros p u [H _]; exact H. }
  split.
  { intros k d u Hd Hu.
    rewrite nth_error_map, Hu in Hd. injection Hd as <-.
    repeat split. apply select_subseq. }
  split.
  { intros i c Hi. apply nth_error_In in Hi.
    destruct (one_key_position _ c Hdist (Hkey c Hi))
      as (k & u & Hk & Hcu & Huniq).
    exists k, u. rewrite <- (Hpy c u Hi). repeat split; auto.
    intros k' u' Hk' Hcu'. apply (Huniq k' u' Hk').
    rewrite (Hpy c u' Hi); exact Hcu'. }
  split.
  { rewrite map_map. simpl. unfold eq_mask.
    apply select_partition.
    - rewrite values_length; exact Hlen.
    - intros c Hc. rewrite <- (one_key _ c Hdist (Hkey c Hc)).
      f_equal. apply filter_ext_in. intros k _. symmetry; apply Hpy, Hc. }
  intros Hno Hrows. unfold get_labels in Hlab. rewrite Hno in Hlab.
  simpl in Hlab. injection Hlab as <-.
  rewrite values_const.
  rewrite unique_constant.
  - split; [|reflexivity]. simpl. unfold subset_of, eq_mask.
    rewrite values_const, map_map. simpl.
    rewrite select_all.
    + destruct data; reflexivity.
    + rewrite length_map. apply range_index_length.
    + apply Forall_map, Forall_forall. reflexivity.
  - intros E. apply Hrows. apply length_zero_iff_nil.
    pose proof (range_index_length (len data)) as HL.
    rewrite E in HL. symmetry; exact HL.
Qed.

(** Grouping at [interleaved_table]: labels A and B, subsets of rows 0, 2 and
    of row 1. *)
Lemma grouping_partitions_witness :
  exists label subsets,
    get_labels interleaved_table = Ok label /\
    get_subsets interleaved_table label
    = Ok (subsets, [CStr "A"; CStr "B"]) /\
    map frame_index subsets = [[0; 2]; [1]] /\
    Permutation (concat (map rows subsets)) (rows interleaved_table).
Proof.
  assert (Hl : get_labels interleaved_table
               = Ok [(0, CStr "A"); (1, CStr "B"); (2, CStr "A")])
    by reflexivity.
  destruct (grouping_partitions interleaved_table _ Hl)
    as (subsets & uniq & Hs & _ & _ & _ & _ & Hperm & _).
  - repeat constructor.
  - exists [(0, CStr "A"); (1, CStr "B"); (2, CStr "A")], subsets.
    vm_compute in Hs. injection Hs as <- <-.
    repeat split; try reflexivity. exact Hperm.
Defined.

(** C6 fails as stated: the subject with the missing label is in the table
    and in none of the subsets, and the group of the missing label is empty. *)
Lemma missing_label_in_no_group :
  exists label subsets,
    get_labels missing_label_table = Ok label /\
    get_subsets missing_label_table label = Ok (subsets, [CStr "A"; NaN]) /\
    map frame_index subsets = [[0]; []] /\
    In 1 (frame_index missing_label_table) /\
    forall d, In d subsets -> ~ In 1 (frame_index d).
Proof.
  eexists; eexists. split; [reflexivity|]. split; [reflexivity|].
  split; [reflexivity|]. split; [right; left; reflexivity|].
  intros d [<-|[<-|[]]]; simpl; [intros [H|[]]; discriminate|intros []].
Qed.

(** ** The orchestrator *)

Section Orchestrator.

Context {L : Library}.

Lemma get_labels_total (data : DataFrame) :
  exists label, get_labels data = Ok label.
Proof.
  unfold get_labels, has_column, getitem.
  destruct (column_position "label" (columns data)); simpl; eauto.
Qed.

Lemma unique_cons (x : cell) (t : list cell) :
  unique (x :: t) = x :: unique_from [x] t.
Proof. reflexivity. Qed.

(** A table with a row has a first group, with the columns of the table. *)
Lemma first_group (data : DataFrame) :
  rows data <> [] ->
  exists label d0 rest uniq,
    get_labels data = Ok label /\
    get_subsets data label = Ok (d0 :: rest, uniq) /\
    columns d0 = columns data.
Proof.
  intros Hrows. destruct (get_labels_total data) as (label & Hl).
  pose proof (get_labels_length _ _ Hl) as Hlen.
  destruct label as [|[i c] label].
  - exfalso; apply Hrows. apply length_zero_iff_nil. symmetry; exact Hlen.
  - exists ((i, c) :: label). rewrite (get_subsets_eq _ _ Hlen).
    simpl values. rewrite unique_cons. simpl map.
    eexists; eexists; eexists. split; [exact Hl|]. split; reflexivity.
Qed.

Lemma has_column_same (c : string) (d data : DataFrame) :
  columns d = columns data -> has_column c d = has_column c data.
Proof. unfold has_column; intros ->; reflexivity. Qed.

(** An exception in the duration resolution of the first group ends the run
    before anything is written. *)
Lemma main_raises_in_first_group (data : DataFrame) (type : string)
  (label : Series cell) (d0 : DataFrame) (rest : list DataFrame)
  (uniq : list cell) (e : exn) :
  get_labels data = Ok label ->
  get_subsets data label = Ok (d0 :: rest, uniq) ->
  get_survival_days d0 type = Raise e ->
  main data type = ([], Raise e).
Proof.
  intros Hl Hs He. unfold main, per_group.
  rewrite Hl; simpl. rewrite Hs; simpl. rewrite He; simpl. reflexivity.
Qed.

Lemma get_survival_days_bad_type (data : DataFrame) (type : string) :
  str_in type ["progress"; "vital"] = false ->
  get_survival_days data type =
  Raise (ValueError ("Type " ++ type ++ " not in ['progress','vital']")).
Proof.
  intros H. unfold get_survival_days, get_survival_columns. rewrite H.
  reflexivity.
Qed.

Lemma get_survival_days_no_date_column (data : DataFrame)
  (type date_col day_col : string) :
  get_survival_columns type = Ok (date_col, day_col) ->
  has_column date_col data = false ->
  get_survival_days data type =
  Raise (ValueError ("Column " ++ date_col ++ " not in data")).
Proof.
  intros Hc Hno. unfold get_survival_days. rewrite Hc; simpl.
  unfold get_survival_days_from_dates. rewrite Hno.
  destruct (get_survival_columns_inv _ _ _ Hc) as [(_ & -> & _)|(_ & -> & _)];
    reflexivity.
Qed.

Lemma get_survival_days_no_day_column (data : DataFrame)
  (type date_col day_col : string)
  (r : Series (option Z) * Series bool) :
  get_survival_columns type = Ok (date_col, day_col) ->
  get_survival_days_from_dates data date_col = Ok r ->
  has_column day_col data = false ->
  get_survival_days data type =
  Raise (ValueError ("Column " ++ day_col ++ " not in data")).
Proof.
  intros Hc Hr Hno. rewrite get_survival_days_eq, Hc; simpl.
  rewrite Hr; simpl. destruct r as [s1 success].
  unfold get_survival_days_from_days. rewrite Hno.
  destruct (get_survival_columns_inv _ _ _ Hc) as [(_ & _ & ->)|(_ & _ & ->)];
    reflexivity.
Qed.

(** C7, as amended.  On a table with at least one row: an analysis type
    outside vital and progress, a table without the date column of the type,
    and a table without the day column of the type when the date tier of the
    first group returns, each make the duration resolution of the first
    group raise a [ValueError] that names the type or the column, and the
    run ends there with nothing written. *)
Theorem configuration_errors_abort (data : DataFrame) (type : string) :
  rows data <> [] ->
  exists label d0 rest uniq,
    get_labels data = Ok label /\
    get_subsets data label = Ok (d0 :: rest, uniq) /\
    (str_in type ["progress"; "vital"] = false ->
     let e := ValueError ("Type " ++ type ++ " not in ['progress','vital']") in
     get_survival_days d0 type = Raise e /\ main data type = ([], Raise e)) /\
    (forall date_col day_col,
        get_survival_columns type = Ok (date_col, day_col) ->
        (has_column date_col data = false ->
         let e := ValueError ("Column " ++ date_col ++ " not in data") in
         get_survival_days d0 type = Raise e /\
         main data type = ([], Raise e)) /\
        (has_column day_col data = false ->
         forall r, get_survival_days_from_dates d0 date_col = Ok r ->
         let e := ValueError ("Column " ++ day_col ++ " not in data") in
         get_survival_days d0 type = Raise e /\
         main data type = ([], Raise e))).
Proof.
  intros Hrows.
  destruct (first_group data Hrows) as (label & d0 & rest & uniq & Hl & Hs & Hc).
  exists label, d0, rest, uniq. split; [exact Hl|]. split; [exact Hs|]. split.
  - intros Hbad e.
    assert (He : get_survival_days d0 type = Raise e)
      by (apply get_survival_days_bad_type, Hbad).
    split; [exact He|]. eapply main_raises_in_first_group; eassumption.
  - intros date_col day_col Hcols. split.
    + intros Hno e.
      assert (He : get_survival_days d0 type = Raise e).
      { eapply get_survival_days_no_date_column; [exact Hcols|].
        rewrite (has_column_same _ _ _ Hc); exact Hno. }
      split; [exact He|]. eapply main_raises_in_first_group; eassumption.
    + intros Hno r Hr e.
      assert (He : get_survival_days d0 type = Raise e).
      { eapply get_survival_days_no_day_column; [exact Hcols|exact Hr|].
        rewrite (has_column_same _ _ _ Hc); exact Hno. }
      split; [exact He|]. eapply main_raises_in_first_group; eassumption.
Qed.

Lemma group_writes_no_logrank (g : groups) :
  forallb (fun ev => negb (is_logrank_event ev)) (group_writes g) = true.
Proof.
  unfold group_writes.
  induction (combine (combine (unique_labels g) (survival_functions g))
                     (censored_dfs g)) as [|x l IH]; simpl; auto.
Qed.

Lemma group_writes_not_logrank (g : groups) (ev : event) :
  In ev (group_writes g) -> is_logrank_event ev = false.
Proof.
  intros H. pose proof (group_writes_no_logrank g) as Hall.
  rewrite forallb_forall in Hall. apply Hall in H.
  apply negb_true_iff in H. exact H.
Qed.

(** The labels a run groups by are the distinct values of its label Series. *)
Lemma per_group_labels (data : DataFrame) (type : string) (g : groups) :
  per_group data type = Ok g ->
  get_labels data = Ok (label_of g) /\
  unique_labels g = unique (values (label_of g)).
Proof.
  unfold per_group.
  destruct (get_labels data) as [label|]; simpl; [|discriminate].
  unfold get_subsets at 1.
  destruct (mapM _ (unique (values label))) as [subsets|]; simpl; [|discriminate].
  destruct (mapM _ subsets) as [sd|]; simpl; [|discriminate].
  destruct (mapM _ subsets) as [es|]; simpl; [|discriminate].
  destruct (mapM _ (combine (combine sd es) subsets)) as [pairs|]; simpl;
    [|discriminate].
  destruct (unzip2 pairs) as [[fs cs]|]; simpl; [|discriminate].
  intros [= <-]. simpl. split; reflexivity.
Qed.

(** C8, as amended.  The comparator is called only when the label Series has
    at least two distinct values, and the comparison table is written only
    after the call; with one distinct label neither happens.  On a run that
    gets through its groups the comparator is called as soon as there are
    two distinct labels, the comparison table is written exactly when the
    call returns, and with one label the run ends normally with the tables
    of the group only. *)
Theorem comparator_gating (data : DataFrame) (type : string) :
  exists label,
    get_labels data = Ok label /\
    let n := length (unique (values label)) in
    let called :=
      exists a b c, In (CallLogrank a b c) (fst (main data type)) in
    let written :=
      exists chi2 p, In (WriteLogrank chi2 p) (fst (main data type)) in
    (called -> (2 <= n)%nat) /\
    (written -> called) /\
    (n = 1%nat ->
     forall ev, In ev (fst (main data type)) -> is_logrank_event ev = false) /\
    forall g,
      per_group data type = Ok g ->
      label_of g = label /\
      ((2 <= n)%nat -> called) /\
      ((2 <= n)%nat ->
       (written <->
        exists r, logrank_test (concat (survival_days_of g))
                               (concat (exit_status_of g)) label = Ok r)) /\
      (n = 1%nat -> main data type = (group_writes g, Ok tt)).
Proof.
  destruct (get_labels_total data) as (label & Hl).
  exists label. split; [exact Hl|]. cbv zeta.
  unfold main.
  destruct (per_group data type) as [g|e] eqn:Hg.
  2:{ simpl. split; [intros (a & b & c & [])|].
      split; [intros (chi2 & p & [])|].
      split; [intros _ ev []|]. intros g [=]. }
  destruct (per_group_labels _ _ _ Hg) as [Hl' Hu].
  assert (El : label_of g = label) by congruence.
  rewrite Hu, El.
  set (n := length (unique (values label))).
  set (sd := concat (survival_days_of g)).
  set (es := concat (exit_status_of g)).
  set (call := CallLogrank (values sd) (values es) (values label)).
  assert (Hcall : forall tl, In call (group_writes g ++ call :: tl))
    by (intros tl; apply in_or_app; right; left; reflexivity).
  assert (Hnw : forall chi2 p, ~ In (WriteLogrank chi2 p) (group_writes g)).
  { intros chi2 p Hin. apply group_writes_not_logrank in Hin; discriminate. }
  assert (Hnc : forall a b c, ~ In (CallLogrank a b c) (group_writes g)).
  { intros a b c Hin. apply group_writes_not_logrank in Hin; discriminate. }
  assert (Hc : exists a b c, In (CallLogrank a b c) (group_writes g ++ [call]))
    by (exists (values sd), (values es), (values label); apply Hcall).
  destruct (Nat.ltb_spec 1 n) as [Hn|Hn].
  - destruct (logrank_test sd es label) as [[chi2 p]|e] eqn:Er; simpl.
    + assert (Hc' : exists a b c,
                 In (CallLogrank a b c)
                    (group_writes g ++ [call; WriteLogrank chi2 p]))
        by (exists (values sd), (values es), (values label); apply Hcall).
      split; [intros _; lia|]. split; [intros _; exact Hc'|].
      split; [intros H1; lia|].
      intros g' [= <-]. split; [exact El|]. split; [intros _; exact Hc'|].
      split; [|intros H1; lia].
      intros _. fold sd es. rewrite Er. split; [eauto|].
      intros _. exists chi2, p.
      apply in_or_app; right; right; left; reflexivity.
    + assert (Hw : ~ exists chi2 p,
                 In (WriteLogrank chi2 p) (group_writes g ++ [call])).
      { intros (chi2 & p & Hin). apply in_app_or in Hin as [Hin|[Hin|[]]].
        - destruct (Hnw _ _ Hin).
        - discriminate. }
      split; [intros _; lia|]. split; [intros H; destruct (Hw H)|].
      split; [intros H1; lia|].
      intros g' [= <-]. split; [exact El|]. split; [intros _; exact Hc|].
      split; [|intros H1; lia].
      intros _. fold sd es. rewrite Er. split; [intros H; destruct (Hw H)|].
      intros (r & [=]).
  - simpl.
    assert (Hw : ~ exists chi2 p, In (WriteLogrank chi2 p) (group_writes g))
      by (intros (chi2 & p & Hin); destruct (Hnw _ _ Hin)).
    split; [intros (a & b & c & Hin); destruct (Hnc _ _ _ Hin)|].
    split; [intros H; destruct (Hw H)|].
    split; [intros _; apply group_writes_not_logrank|].
    intros g' [= <-]. split; [exact El|]. split; [intros H2; lia|].
    split; [intros H2; lia|]. reflexivity.
Qed.

End Orchestrator.

(** An unknown analysis type, and a table without the day column of [vital]. *)
Lemma configuration_errors_abort_witness :
  main (L := iso_library) interleaved_table "overall"
  = ([], Raise (ValueError "Type overall not in ['progress','vital']")) /\
  main (L := iso_library) dates_only_table "vital"
  = ([], Raise (ValueError "Column vital_status_change_day not in data")).
Proof.
  split.
  - destruct (configuration_errors_abort (L := iso_library) interleaved_table
                "overall") as (label & d0 & rest & uniq & _ & _ & Hbad & _).
    + discriminate.
    + apply Hbad. reflexivity.
  - destruct (configuration_errors_abort (L := iso_library) dates_only_table
                "vital") as (label & d0 & rest & uniq & Hl & Hs & _ & Hcol).
    + discriminate.
    + vm_compute in Hl. injection Hl as <-.
      vm_compute in Hs. injection Hs as <- <- <-.
      destruct (Hcol _ _ eq_refl) as [_ Hday].
      eapply Hday; vm_compute; reflexivity.
Defined.

(** C7 fails as stated: on a table without rows an analysis type outside
    vital and progress is never looked at, and the run ends with an error
    that names neither the type nor a column. *)
Lemma empty_table_hides_invalid_type :
  str_in "overall" ["progress"; "vital"] = false /\
  main (L := iso_library) empty_table "overall"
  = ([], Raise (ValueError "not enough values to unpack (expected 2, got 0)")).
Proof. split; reflexivity. Qed.

(** Two labels in [interleaved_table], one group in [fallback_table]. *)
Lemma comparator_gating_witness :
  (exists a b c,
      In (CallLogrank a b c)
         (fst (main (L := iso_library) interleaved_table "vital"))) /\
  (forall ev, In ev (fst (main (L := iso_library) fallback_table "vital")) ->
              is_logrank_event ev = false).
Proof.
  split.
  - destruct (comparator_gating (L := iso_library) interleaved_table "vital")
      as (label & Hl & _ & _ & _ & Hrun).
    destruct (per_group (L := iso_library) interleaved_table "vital")
      as [g|] eqn:Hg; [|vm_compute in Hg; discriminate].
    destruct (Hrun g eq_refl) as (_ & Hcall & _).
    apply Hcall. vm_compute in Hl. injection Hl as <-. vm_compute. lia.
  - destruct (comparator_gating (L := iso_library) fallback_table "vital")
      as (label & Hl & _ & _ & Hone & _).
    apply Hone. vm_compute in Hl. injection Hl as <-. reflexivity.
Defined.

(** C8 fails as stated: two distinct labels do not make a comparison
    output.  [two_group_table] has two labels and each of its groups is
    processed; with a comparator that raises, the comparator is called, the
    run ends with the comparator's error and no comparison table is written.
    With an analysis type outside vital and progress the same two labels
    lead to no call at all. *)
Lemma two_labels_without_comparison_output :
  (exists label,
      get_labels two_group_table = Ok label /\
      length (unique (values label)) = 2%nat) /\
  (exists g,
      per_group (L := failing_comparator_library) two_group_table "vital"
      = Ok g) /\
  (exists a b c,
      In (CallLogrank a b c)
         (fst (main (L := failing_comparator_library) two_group_table
                 "vital"))) /\
  (forall chi2 p,
      ~ In (WriteLogrank chi2 p)
           (fst (main (L := failing_comparator_library) two_group_table
                   "vital"))) /\
  snd (main (L := failing_comparator_library) two_group_table "vital")
  = Raise (LibraryError "comparison failed") /\
  str_in "overall" ["progress"; "vital"] = false /\
  (forall a b c,
      ~ In (CallLogrank a b c)
           (fst (main (L := iso_library) two_group_table "overall"))).
Proof.
  split; [eexists; split; reflexivity|].
  split.
  { destruct (per_group (L := failing_comparator_library) two_group_table
                "vital") as [g|] eqn:Hg; [eauto|vm_compute in Hg; discriminate]. }
  remember (main (L := failing_comparator_library) two_group_table "vital")
    as m eqn:Hm.
  vm_compute in Hm. subst m.
  split; [simpl; do 3 eexists; do 4 right; left; reflexivity|].
  split.
  { intros chi2 p H. simpl in H.
    repeat (destruct H as [H|H]; [discriminate|]). exact H. }
  split; [reflexivity|]. split; [reflexivity|].
  intros a b c H.
  remember (main (L := iso_library) two_group_table "overall") as m eqn:Hm.
  vm_compute in Hm. subst m. exact H.
Qed.

(** ** The comparator's arguments and the censored records at concrete runs *)

(** C2, at the failing input.  Labels A, B, A: the durations and the events
    handed to the comparator are in group order, subjects 0, 2, 1, and the
    labels are in table order, so the duration 30 and the event indicator of
    subject 2, whose label is A, stand at the position of label B. *)
Theorem logrank_labels_not_in_group_order :
  exists g,
    per_group (L := iso_library) interleaved_table "vital" = Ok g /\
    unique_labels g = [CStr "A"; CStr "B"] /\
    map frame_index (subsets_of g) = [[0; 2]; [1]] /\
    map values (survival_days_of g) = [[10; 30]; [20]]%float /\
    map values (exit_status_of g) = [[true; false]; [true]] /\
    In (CallLogrank [10; 30; 20]%float [true; false; true]
                    [CStr "A"; CStr "B"; CStr "A"])
       (fst (main (L := iso_library) interleaved_table "vital")).
Proof.
  eexists. split; [vm_compute; reflexivity|].
  repeat split; try reflexivity.
  vm_compute. right; right; right; right; left; reflexivity.
Qed.

(** C4, at the failing input.  Group B holds the one censored subject s1
    with duration 42; its identifiers carry the row label 1 of the table and
    its durations the position 0, so the censored table of the group has two
    rows, one without identifier and one without duration, and none pairs s1
    with 42. *)
Theorem censored_rows_misaligned_in_second_group :
  exists g,
    per_group (L := iso_library) two_group_table "vital" = Ok g /\
    unique_labels g = [CStr "A"; CStr "B"] /\
    survival_days_of g = [[(0, 7%float)]; [(0, 42%float)]] /\
    exit_status_of g = [[(0, false)]; [(1, false)]] /\
    censored_dfs g = [[(0, (CStr "s0", 7%float))];
                      [(0, (NaN, 42%float)); (1, (CStr "s1", nan))]].
Proof.
  eexists. split; [vm_compute; reflexivity|].
  repeat split; reflexivity.
Qed.

(** ** The censored records when the indexes agree *)

Lemma list_Z_eqb_refl (a : list Z) : list_Z_eqb a a = true.
Proof. unfold list_Z_eqb. destruct (list_eq_dec Z.eq_dec a a); congruence. Qed.

Lemma select_combine {A B} (mask : list bool) (a : list A) (b : list B) :
  length a = length mask -> length b = length mask ->
  combine (select mask a) (select mask b) = select mask (combine a b).
Proof.
  revert a b; induction mask as [|m mask IH]; intros [|x a] [|y b]; simpl;
    try discriminate; auto.
  intros [= Ha] [= Hb]. rewrite !select_cons.
  destruct m; simpl; rewrite IH; auto.
Qed.

Lemma index_select {A} (mask : list bool) (s : Series A) :
  index (select mask s) = select mask (index s).
Proof. unfold index. symmetry; apply select_map. Qed.

Lemma index_eq_length {A B} (a : Series A) (b : Series B) :
  index a = index b -> length a = length b.
Proof. intros H. rewrite <- (index_length a), H. apply index_length. Qed.

(** For a group whose durations, events and identifiers carry one and the
    same index, as they do in a run with a single group, the extractor
    returns the censored subjects, each identifier with the duration at the
    same position, in the order of the group. *)
Lemma get_censored_df_aligned (survival_days : Series float)
  (exit_status : Series bool) (ids : Series cell) :
  index ids = index exit_status ->
  index survival_days = index exit_status ->
  get_censored_df survival_days exit_status ids =
  Ok (select (map negb (values exit_status))
        (map (fun p => (fst (fst p), (snd (fst p), snd (snd p))))
             (combine ids survival_days))).
Proof.
  intros Hi Hs. unfold get_censored_df.
  set (censored := map (fun p => (fst p, Bool.eqb (snd p) false)) exit_status).
  assert (Hc : index censored = index exit_status).
  { unfold censored, index. rewrite map_map. reflexivity. }
  assert (Hv : values censored = map negb (values exit_status)).
  { unfold censored, values. rewrite !map_map. apply map_ext.
    intros [i []]; reflexivity. }
  assert (Lm : length (values censored) = length exit_status).
  { rewrite Hv, length_map. apply values_length. }
  unfold getitem_bool. rewrite Hc, <- Hi, list_Z_eqb_refl. simpl.
  rewrite iloc_mask_ok
    by (rewrite Lm; symmetry; apply index_eq_length; exact Hs).
  simpl. unfold frame_of_series.
  rewrite !index_select, Hi, Hs, list_Z_eqb_refl.
  rewrite select_combine.
  - rewrite Hv. rewrite select_map. reflexivity.
  - rewrite Lm. apply index_eq_length; exact Hi.
  - rewrite Lm. apply index_eq_length; exact Hs.
Qed.

Lemma select_negb_length {A} (mask : list bool) (l : list A) :
  length mask = length l ->
  (length (select (map negb mask) l) + count_true mask = length l)%nat.
Proof.
  revert l; induction mask as [|m mask IH]; intros [|x l]; simpl;
    try discriminate; auto.
  intros [= H]. rewrite select_cons. unfold count_true in *.
  destruct m; simpl; rewrite <- (IH l H); lia.
Qed.

(** Censored rows and events together are the subjects of the group. *)
Lemma get_censored_df_count (survival_days : Series float)
  (exit_status : Series bool) (ids : Series cell) (df : censored_df) :
  index ids = index exit_status ->
  index survival_days = index exit_status ->
  get_censored_df survival_days exit_status ids = Ok df ->
  (length df + count_true (values exit_status) = length exit_status)%nat.
Proof.
  intros Hi Hs. rewrite (get_censored_df_aligned _ _ _ Hi Hs).
  intros [= <-].
  assert (Hl : length (map (fun p : Z * cell * (Z * float) =>
                              (fst (fst p), (snd (fst p), snd (snd p))))
                           (combine ids survival_days))
               = length exit_status).
  { rewrite length_map, length_combine.
    rewrite (index_eq_length _ _ Hi), (index_eq_length _ _ Hs).
    apply Nat.min_id. }
  rewrite select_negb_length; [exact Hl|].
  rewrite values_length; symmetry; exact Hl.
Qed.

(** ** The day tier does not look at the column it is asked for *)

Lemma day_tier_column_ignored {L : Library} (data : DataFrame) (c1 c2 : string) :
  str_in c1 ["vital_status_change_day"; "progression_status_change_day"] = true ->
  str_in c2 ["vital_status_change_day"; "progression_status_change_day"] = true ->
  has_column c1 data = true -> has_column c2 data = true ->
  get_survival_days_from_days data c1 = get_survival_days_from_days data c2.
Proof.
  intros V1 V2 H1 H2. unfold get_survival_days_from_days.
  rewrite V1, V2, H1, H2. reflexivity.
Qed.

Section TierCombination.

Context {L : Library}.

(** Once the date tier and the day tier have both returned on a table,
    combining them cannot fail: the two masked assignments of
    [get_survival_days] always fit, and the resolution returns one duration
    per row under the index 0, 1, ... *)
Theorem masked_assignments_never_raise (data : DataFrame)
  (type date_col day_col : string)
  (r1 : Series (option Z) * Series bool) (r2 : Series float * Series bool) :
  get_survival_columns type = Ok (date_col, day_col) ->
  get_survival_days_from_dates data date_col = Ok r1 ->
  get_survival_days_from_days data day_col = Ok r2 ->
  exists s,
    get_survival_days data type = Ok s /\
    length s = len data /\ index s = range_index (len data).
Proof.
  intros Hcols H1 H2.
  destruct (get_survival_days data type) as [s|e] eqn:Hs.
  - exists s. split; [reflexivity|].
    destruct (get_survival_days_inv _ _ _ Hs)
      as (? & ? & ? & ? & ? & ? & ? & ? & _ & _ & _ & _ & _ & _ & _ & _ & _ & Hi & _).
    split; [|exact Hi].
    rewrite <- index_length, Hi. apply range_index_length.
  - rewrite get_survival_days_eq, Hcols in Hs. simpl in Hs.
    rewrite H1 in Hs. destruct r1 as [s1 success]. simpl in Hs.
    rewrite H2 in Hs. destruct r2 as [s2 succ2]. discriminate.
Qed.

(** In a run with one group over a table as [read_csv] gives it, durations,
    events and identifiers share the index of the table, and the censored
    table pairs each censored subject with its own duration. *)
Lemma single_group_censored (data : DataFrame) (type : string)
  (sd : Series float) (es : Series bool) (ids : Series cell) :
  read_csv_shaped data ->
  get_survival_days data type = Ok sd ->
  get_exit_status data type = Ok es ->
  getattr data "sample_id" = Ok ids ->
  get_censored_df sd es ids =
  Ok (select (map negb (values es))
        (map (fun p => (fst (fst p), (snd (fst p), snd (snd p))))
             (combine ids sd))).
Proof.
  intros Hshape Hsd Hes Hids.
  assert (Ies : index es = frame_index data).
  { pose proof (get_exit_status_type _ _ _ Hes) as Ht.
    rewrite (get_exit_status_eq _ _ Ht) in Hes.
    destruct (getitem data (status_column type)) as [col|] eqn:Ec;
      simpl in Hes; [|discriminate].
    injection Hes as <-. unfold index. rewrite map_map. simpl.
    apply (getitem_index _ _ _ Ec). }
  assert (Iids : index ids = frame_index data).
  { unfold getattr in Hids.
    destruct (column_position "sample_id" (columns data)); [|discriminate].
    injection Hids as <-. unfold index, frame_index. rewrite map_map.
    reflexivity. }
  assert (Isd : index sd = frame_index data).
  { destruct (get_survival_days_inv _ _ _ Hsd)
      as (? & ? & ? & ? & ? & ? & ? & ? & _ & _ & _ & _ & _ & _ & _ & _ & _ & Hi & _).
    rewrite Hi. symmetry; exact Hshape. }
  apply get_censored_df_aligned; congruence.
Qed.

End TierCombination.

(** Both tiers return at [fallback_table], and so does the resolution. *)
Lemma masked_assignments_never_raise_witness :
  exists s,
    get_survival_days (L := iso_library) fallback_table "vital" = Ok s /\
    length s = len fallback_table /\
    index s = range_index (len fallback_table).
Proof.
  apply (masked_assignments_never_raise (L := iso_library) fallback_table
           "vital" "vital_status_change_date" "vital_status_change_day"
           ([(0, Some 10); (1, None)], [(0, true); (1, false)])
           ([(0, 7%float); (1, 42%float)], [(0, true); (1, true)]));
    vm_compute; reflexivity.
Defined.

(** The one censored subject of [fallback_table] with its own duration. *)
Lemma single_group_censored_witness :
  exists sd es ids,
    get_survival_days (L := iso_library) fallback_table "vital" = Ok sd /\
    get_exit_status fallback_table "vital" = Ok es /\
    getattr fallback_table "sample_id" = Ok ids /\
    get_censored_df sd es ids = Ok [(1, (CStr "s1", 42%float))].
Proof.
  exists [(0, 10%float); (1, 42%float)], [(0, true); (1, false)],
         [(0, CStr "s0"); (1, CStr "s1")].
  assert (Hsd : get_survival_days (L := iso_library) fallback_table "vital"
                = Ok [(0, 10%float); (1, 42%float)]) by (vm_compute; reflexivity).
  split; [exact Hsd|]. split; [reflexivity|]. split; [reflexivity|].
  rewrite (single_group_censored (L := iso_library) fallback_table "vital"
             _ [(0, true); (1, false)] [(0, CStr "s0"); (1, CStr "s1")]
             eq_refl Hsd eq_refl eq_refl).
  reflexivity.
Defined.

(** Both day column names give the same result at [progress_table]. *)
Lemma day_tier_column_ignored_witness :
  get_survival_days_from_days (L := iso_library) progress_table
    "progression_status_change_day"
  = get_survival_days_from_days (L := iso_library) progress_table
      "vital_status_change_day".
Proof.
  apply (day_tier_column_ignored (L := iso_library)); reflexivity.
Defined.

(** Censored rows and events add up at [fallback_table]. *)
Lemma get_censored_df_count_witness :
  (length [(1%Z, (CStr "s1", 42%float))]
   + count_true (values [(0%Z, true); (1%Z, false)])
   = length [(0%Z, true); (1%Z, false)])%nat.
Proof.
  exact (get_censored_df_count [(0, 10%float); (1, 42%float)]
           [(0, true); (1, false)] [(0, CStr "s0"); (1, CStr "s1")]
           [(1, (CStr "s1", 42%float))] eq_refl eq_refl eq_refl).
Defined.

(** ** Errors of the duration resolution *)

Section ResolutionErrors.

Context {L : Library}.

Lemma has_column_false_getitem (data : DataFrame) (c : string) :
  has_column c data = false -> getitem data c = Raise (KeyError c).
Proof.
  unfold has_column, getitem.
  destruct (column_position c (columns data)); [discriminate|reflexivity].
Qed.

Lemma has_column_true_getitem (data : DataFrame) (c : string) :
  has_column c data = true -> exists s, getitem data c = Ok s.
Proof.
  unfold has_column, getitem.
  destruct (column_position c (columns data)); [eauto|discriminate].
Qed.

Lemma get_survival_columns_date_valid (type date_col day_col : string) :
  get_survival_columns type = Ok (date_col, day_col) ->
  str_in date_col
    ["vital_status_change_date"; "progression_status_change_date"] = true /\
  str_in day_col
    ["vital_status_change_day"; "progression_status_change_day"] = true.
Proof.
  intros H.
  destruct (get_survival_columns_inv _ _ _ H) as [(_ & -> & ->)|(_ & -> & ->)];
    split; reflexivity.
Qed.

(** A table without [diagnosis_date] makes the resolution raise a [KeyError]
    for that column, once the type and the date column have passed their
    checks. *)
Theorem missing_diagnosis_date_key_error (data : DataFrame)
  (type date_col day_col : string) :
  get_survival_columns type = Ok (date_col, day_col) ->
  has_column date_col data = true ->
  has_column "diagnosis_date" data = false ->
  get_survival_days data type = Raise (KeyError "diagnosis_date").
Proof.
  intros Hc Hdate Hno. unfold get_survival_days. rewrite Hc; simpl.
  unfold get_survival_days_from_dates.
  destruct (get_survival_columns_date_valid _ _ _ Hc) as [-> _].
  rewrite Hdate. simpl.
  rewrite (has_column_false_getitem _ _ Hno). reflexivity.
Qed.

(** The first element on which [f] raises decides the outcome of [mapM]. *)
Lemma mapM_raises {A B} (f : A -> result B) (l : list A) (x : A) (e : exn) :
  In x l -> f x = Raise e ->
  exists x' e', In x' l /\ f x' = Raise e' /\ mapM f l = Raise e'.
Proof.
  induction l as [|a l IH]; simpl; [intros []|].
  intros Hin Hx. destruct (f a) as [b|e0] eqn:Ea; simpl.
  - destruct Hin as [->|Hin]; [congruence|].
    destruct (IH Hin Hx) as (x' & e' & Hin' & Hx' & Hm).
    exists x', e'. rewrite Hm. auto.
  - exists a, e0. auto.
Qed.

Lemma to_float_raises (c : cell) (e : exn) :
  to_float c = Raise e ->
  exists s, c = CStr s /\ float_of_str s = None /\
            e = ValueError ("could not convert string to float: "
                            ++ repr_str s).
Proof.
  destruct c as [b|z|f|s]; simpl; try discriminate.
  destruct (float_of_str s) eqn:E; [discriminate|].
  intros [= <-]. eauto.
Qed.

(** Under [vital], one day-count cell that does not read as a number makes
    the resolution of the whole subset raise, whether or not its subject
    needs the day tier: the error is the [ValueError] of [float], whose
    message shows, by its [repr], a cell of the column that does not
    convert. *)
Theorem non_numeric_day_cell_aborts (data : DataFrame)
  (r : Series (option Z) * Series bool)
  (col : Series cell) (idx : Z) (s : string) :
  get_survival_days_from_dates data "vital_status_change_date" = Ok r ->
  getitem data "vital_status_change_day" = Ok col ->
  In (idx, CStr s) col -> float_of_str s = None ->
  exists idx' s',
    In (idx', CStr s') col /\ float_of_str s' = None /\
    get_survival_days data "vital"
    = Raise (ValueError ("could not convert string to float: "
                         ++ repr_str s')).
Proof.
  intros Hr Hcol Hin Hs.
  rewrite get_survival_days_eq. simpl. rewrite Hr. simpl.
  destruct r as [s1 success].
  unfold get_survival_days_from_days. simpl.
  assert (Hday : has_column "vital_status_change_day" data = true).
  { unfold has_column. unfold getitem in Hcol.
    destruct (column_position _ (columns data)); [reflexivity|discriminate]. }
  rewrite Hday, Hcol. simpl. unfold astype_float.
  destruct (mapM_raises
              (fun p : Z * cell => f <- to_float (snd p) ;; Ok (fst p, f))
              col (idx, CStr s)
              (ValueError ("could not convert string to float: "
                           ++ repr_str s)) Hin)
    as ([idx' x'] & e' & Hin' & Hx' & Hm).
  { simpl. rewrite Hs. reflexivity. }
  simpl in Hx'. destruct (to_float x') as [f|e0] eqn:Ef; simpl in Hx';
    [discriminate|]. injection Hx' as <-.
  destruct (to_float_raises _ _ Ef) as (s' & -> & Hs' & ->).
  exists idx', s'. rewrite Hm. auto.
Qed.

(** [mapM] returns when [f] returns on every element. *)
Lemma mapM_returns {A B} (f : A -> result B) (l : list A) :
  (forall x, In x l -> exists y, f x = Ok y) -> exists r, mapM f l = Ok r.
Proof.
  induction l as [|a l IH]; simpl; intros H; [eauto|].
  destruct (H a (or_introl eq_refl)) as (y & ->). simpl.
  destruct IH as (r & ->); [intros x Hx; apply H; auto|]. simpl. eauto.
Qed.

Lemma nth_error_combine_inv {A B} (a : list A) (b : list B) (i : nat)
  (x : A) (y : B) :
  nth_error (combine a b) i = Some (x, y) ->
  nth_error a i = Some x /\ nth_error b i = Some y.
Proof.
  revert a b; induction i as [|i IH]; intros [|x' a] [|y' b]; simpl;
    try discriminate.
  - intros [= -> ->]; auto.
  - apply IH.
Qed.

(** Under [vital], a missing day count raises nothing: once the date tier has
    returned and every day count that is present reads as a number, the
    resolution returns, and a subject with no date pair and no day count has
    NaN as its duration. *)
Theorem unresolved_duration_is_nan (data : DataFrame)
  (s1 : Series (option Z)) (success : Series bool) (col : Series cell) :
  get_survival_days_from_dates data "vital_status_change_date"
  = Ok (s1, success) ->
  getitem data "vital_status_change_day" = Ok col ->
  (forall idx x, In (idx, x) col -> isna x = false ->
                 exists f, to_float x = Ok f) ->
  exists s,
    get_survival_days data "vital" = Ok s /\
    forall i idx x,
      nth_error (values success) i = Some false ->
      nth_error col i = Some (idx, x) -> isna x = true ->
      exists f, to_float x = Ok f /\ nth_error (values s) i = Some f /\
                is_nan f = true.
Proof.
  intros H1 Hcol Hconv.
  assert (Hday : has_column "vital_status_change_day" data = true).
  { unfold has_column. unfold getitem in Hcol.
    destruct (column_position _ (columns data)); [reflexivity|discriminate]. }
  destruct (mapM_returns
              (fun p : Z * cell => f <- to_float (snd p) ;; Ok (fst p, f)) col)
    as (days & Hdays).
  { intros [idx x] Hin. simpl. destruct (isna x) eqn:Ena.
    - destruct x as [b|z|g|t]; try discriminate. simpl. eauto.
    - destruct (Hconv idx x Hin Ena) as (f & ->). simpl. eauto. }
  destruct (get_survival_days data "vital") as [s|e] eqn:Hs.
  - exists s. split; [reflexivity|].
    intros i idx x Hm Hx Hna.
    destruct (get_survival_days_inv _ _ _ Hs)
      as (date_col' & day_col' & diag' & census' & dts' & cts' & col' & days' &
          Hc' & _ & _ & Hd' & Hdts' & Hce' & Hcts' & Hcol' & Hdays' & _ & Hnth).
    vm_compute in Hc'. injection Hc' as <- <-.
    destruct (get_survival_days_from_dates_inv _ _ _ _ H1)
      as (_ & diag & census & dts & cts & Hd & Hdts & Hce & Hcts & _ & _ &
          Hs1 & Hsucc).
    assert (diag' = diag) by congruence. subst diag'.
    assert (census' = census) by congruence. subst census'.
    assert (dts' = dts) by congruence. subst dts'.
    assert (cts' = cts) by congruence. subst cts'.
    assert (col' = col) by congruence. subst col'.
    rewrite Hsucc, Hs1, !nth_error_map in Hm.
    destruct (nth_error (combine cts dts) i) as [[c d]|] eqn:Ecd;
      simpl in Hm; [|discriminate].
    destruct (nth_error_combine_inv _ _ _ _ _ Ecd) as [Hic Hid].
    destruct (astype_float_nth _ _ _ _ _ Hdays' Hx) as (f & Hf & Hn).
    exists f. split; [exact Hf|].
    assert (Hv : nth_error (values days') i = Some f).
    { unfold values. rewrite (map_nth_error snd _ _ Hn). reflexivity. }
    rewrite (Hnth _ _ _ _ Hic Hid Hv).
    destruct (days_between c d); [discriminate|].
    split; [reflexivity|].
    destruct x as [b|z|g|t]; try discriminate. simpl in Hf, Hna.
    injection Hf as <-. exact Hna.
  - rewrite get_survival_days_eq in Hs. simpl in Hs. rewrite H1 in Hs.
    simpl in Hs. unfold get_survival_days_from_days in Hs. simpl in Hs.
    rewrite Hday, Hcol in Hs. simpl in Hs. unfold astype_float in Hs.
    rewrite Hdays in Hs. discriminate.
Qed.

(** The day count of the date tier is the difference rounded down to whole
    days, so a follow-up before the diagnosis resolves to a negative count:
    the resolution returns it as it is. *)
Theorem date_tier_rounds_down (data : DataFrame) (type : string)
  (s : Series float) (date_col day_col : string)
  (census diag : Series cell) (cts dts : list (option Z))
  (i : nat) (tc td : Z) :
  get_survival_days data type = Ok s ->
  get_survival_columns type = Ok (date_col, day_col) ->
  getitem data "diagnosis_date" = Ok diag ->
  to_datetime (values diag) = Ok dts ->
  getitem data date_col = Ok census ->
  to_datetime (values census) = Ok cts ->
  nth_error cts i = Some (Some tc) -> nth_error dts i = Some (Some td) ->
  exists z,
    nth_error (values s) i = Some (float_of_Z z) /\
    z * nanoseconds_per_day <= tc - td < (z + 1) * nanoseconds_per_day /\
    (tc < td -> z < 0).
Proof.
  intros Hs Hc Hd Hdts Hce Hcts Hic Hid.
  destruct (get_survival_days_inv _ _ _ Hs)
    as (date_col' & day_col' & diag' & census' & dts' & cts' & col' & days &
        Hc' & _ & _ & Hd' & Hdts' & Hce' & Hcts' & Hcol' & Hdays & _ & Hnth).
  assert (date_col' = date_col) by congruence. subst date_col'.
  assert (diag' = diag) by congruence. subst diag'.
  assert (census' = census) by congruence. subst census'.
  assert (dts' = dts) by congruence. subst dts'.
  assert (cts' = cts) by congruence. subst cts'.
  assert (Li : (i < length (values days))%nat).
  { rewrite values_length, (astype_float_length _ _ Hdays),
      (getitem_length _ _ _ Hcol'), <- (getitem_length _ _ _ Hce),
      <- values_length, <- (to_datetime_length _ _ Hcts).
    eapply nth_error_lt; eassumption. }
  destruct (nth_error_ex _ _ Li) as (f & Hf).
  exists ((tc - td) / nanoseconds_per_day).
  split; [rewrite (Hnth _ _ _ _ Hic Hid Hf); reflexivity|].
  unfold nanoseconds_per_day.
  pose proof (Z.div_mod (tc - td) 86400000000000 ltac:(lia)) as Hdm.
  pose proof (Z.mod_pos_bound (tc - td) 86400000000000 ltac:(lia)) as Hb.
  split; [lia|]. intros Hlt.
  apply Z.div_lt_upper_bound; lia.
Qed.

End ResolutionErrors.

(** ** How the steps of a run fit together *)

Section Composition.

Context {L : Library}.

Lemma get_exit_status_inv (data : DataFrame) (type : string) (es : Series bool) :
  get_exit_status data type = Ok es ->
  exists col,
    getitem data (status_column type) = Ok col /\
    es = map (fun p => (fst p, py_eq (snd p) (CBool (event_value type)))) col.
Proof.
  intros H. pose proof (get_exit_status_type _ _ _ H) as Ht.
  rewrite (get_exit_status_eq _ _ Ht) in H.
  destruct (getitem data (status_column type)) as [col|]; simpl in H;
    [|discriminate].
  injection H as <-. eauto.
Qed.

Lemma get_exit_status_shape (data : DataFrame) (type : string) (es : Series bool) :
  get_exit_status data type = Ok es ->
  length es = len data /\ index es = frame_index data.
Proof.
  intros H. destruct (get_exit_status_inv _ _ _ H) as (col & Hc & ->).
  split.
  - rewrite length_map. apply (getitem_length _ _ _ Hc).
  - unfold index. rewrite map_map. simpl. apply (getitem_index _ _ _ Hc).
Qed.

Lemma get_survival_days_shape (data : DataFrame) (type : string)
  (sd : Series float) :
  get_survival_days data type = Ok sd ->
  length sd = len data /\ index sd = range_index (len data) /\
  (type = "vital" \/ type = "progress").
Proof.
  intros H.
  destruct (get_survival_days_inv _ _ _ H)
    as (dc & yc & ? & ? & ? & ? & ? & ? & Hc & _ & _ & _ & _ & _ & _ & _ & _ &
        Hi & _).
  split; [|split].
  - rewrite <- (index_length sd), Hi. apply range_index_length.
  - exact Hi.
  - destruct (get_survival_columns_inv _ _ _ Hc) as [(-> & _)|(-> & _)]; auto.
Qed.

(** Once the durations of a subset resolve, its event classification can
    fail only for a missing status column, with a [KeyError] for it;
    otherwise there is one indicator per duration.  The indicators carry the
    row labels of the subset, the durations the positions 0, 1, 2, ... *)
Theorem events_after_durations (data : DataFrame) (type : string)
  (sd : Series float) :
  get_survival_days data type = Ok sd ->
  index sd = range_index (len data) /\
  ((has_column (status_column type) data = false /\
    get_exit_status data type = Raise (KeyError (status_column type))) \/
   (exists es,
       get_exit_status data type = Ok es /\ length es = length sd /\
       index es = frame_index data)).
Proof.
  intros H. destruct (get_survival_days_shape _ _ _ H) as (Hl & Hi & Ht).
  split; [exact Hi|].
  rewrite (get_exit_status_eq _ _ Ht).
  destruct (has_column (status_column type) data) eqn:Hc.
  - right. destruct (has_column_true_getitem _ _ Hc) as (col & Hcol).
    rewrite Hcol. simpl. eexists. split; [reflexivity|]. split.
    + rewrite length_map, (getitem_length _ _ _ Hcol). congruence.
    + unfold index. rewrite map_map. simpl. apply (getitem_index _ _ _ Hcol).
  - left. split; [reflexivity|].
    rewrite (has_column_false_getitem _ _ Hc). reflexivity.
Qed.

Lemma insert_sorted_In (i x : Z) (l : list Z) :
  In x l \/ x = i -> In x (insert_sorted i l).
Proof.
  induction l as [|j l IH]; simpl.
  - intros [[]| ->]; auto.
  - destruct (Z.ltb_spec i j); [simpl; intuition|].
    destruct (Z.eqb_spec i j) as [->|Hne]; simpl; intuition.
Qed.

Lemma union_index_incl_r (a b : list Z) (x : Z) :
  In x b -> In x (union_index a b).
Proof.
  unfold union_index, list_Z_eqb.
  destruct (list_eq_dec Z.eq_dec a b) as [->|_]; [auto|].
  intros Hx. assert (H : In x (a ++ b)) by (apply in_or_app; auto).
  revert H. generalize (a ++ b). clear.
  induction l as [|j l IH]; simpl; [auto|].
  intros [->|H]; apply insert_sorted_In; auto.
Qed.

Lemma NoDup_select {A} (mask : list bool) (l : list A) :
  NoDup l -> NoDup (select mask l).
Proof.
  intros H. revert mask; induction H as [|x l Hx Hl IH]; intros [|m mask].
  - constructor.
  - constructor.
  - constructor.
  - rewrite select_cons. destruct m; [|apply IH].
    constructor; [|apply IH]. intros Hin. apply Hx.
    clear -Hin. revert mask Hin; induction l as [|y l IHl]; intros [|m mask];
      try (intros []). rewrite select_cons.
    destruct m; simpl; intros H; [destruct H as [->|H]|]; eauto.
Qed.

Lemma NoDup_range_index (n : nat) : NoDup (range_index n).
Proof.
  unfold range_index. generalize (seq_NoDup n 0).
  induction 1 as [|x l Hx Hl IH]; simpl; constructor; auto.
  rewrite in_map_iff. intros (y & Hy & Hin).
  apply Nat2Z.inj in Hy. subst y. auto.
Qed.

(** Within a run the censoring extractor never raises: the mask, the
    identifiers and the durations of a subset always have the same length.
    Its table has at least one row per censored subject. *)
Theorem censored_extractor_returns (data : DataFrame) (type : string)
  (sd : Series float) (es : Series bool) (ids : Series cell) :
  get_survival_days data type = Ok sd ->
  get_exit_status data type = Ok es ->
  getattr data "sample_id" = Ok ids ->
  exists df,
    get_censored_df sd es ids = Ok df /\
    (length (filter negb (values es)) <= length df)%nat.
Proof.
  intros Hsd Hes Hids.
  destruct (get_survival_days_shape _ _ _ Hsd) as (Lsd & Isd & _).
  destruct (get_exit_status_shape _ _ _ Hes) as (Les & Ies).
  assert (Iids : index ids = frame_index data).
  { unfold getattr in Hids.
    destruct (column_position "sample_id" (columns data)); [|discriminate].
    injection Hids as <-. unfold index, frame_index. rewrite map_map.
    reflexivity. }
  unfold get_censored_df.
  set (censored := map (fun p => (fst p, Bool.eqb (snd p) false)) es).
  assert (Hc : index censored = index es).
  { unfold censored, index. rewrite map_map. reflexivity. }
  assert (Hv : values censored = map negb (values es)).
  { unfold censored, values. rewrite !map_map. apply map_ext.
    intros [i []]; reflexivity. }
  unfold getitem_bool. rewrite Hc, Ies, Iids, list_Z_eqb_refl. simpl.
  rewrite iloc_mask_ok
    by (rewrite Hv, length_map, values_length; congruence).
  simpl. eexists. split; [reflexivity|].
  assert (Hcount : length (filter negb (values es))
                   = length (select (values censored) sd)).
  { rewrite select_length
      by (rewrite Hv, length_map, values_length; congruence).
    rewrite Hv. unfold count_true. clear.
    induction (values es) as [|[] l IH]; simpl; auto. }
  rewrite Hcount. unfold frame_of_series.
  destruct (list_Z_eqb _ _) eqn:E.
  - rewrite length_map, length_combine.
    unfold list_Z_eqb in E.
    destruct (list_eq_dec Z.eq_dec
                (index (select (values censored) ids))
                (index (select (values censored) sd))) as [Heq|]; [|discriminate].
    rewrite (index_eq_length _ _ Heq). rewrite Nat.min_id. apply le_n.
  - rewrite length_map.
    rewrite <- (index_length (select (values censored) sd)).
    apply NoDup_incl_length.
    + rewrite index_select, Isd. apply NoDup_select, NoDup_range_index.
    + intros x Hx. apply union_index_incl_r, Hx.
Qed.

End Composition.

(** ** What a run writes *)

Section Run.

Context {L : Library}.

Lemma mapM_Forall2 {A B} (f : A -> result B) (l : list A) (r : list B) :
  mapM f l = Ok r -> Forall2 (fun x y => f x = Ok y) l r.
Proof.
  revert r; induction l as [|x l IH]; intros r; simpl.
  - intros [= <-]; constructor.
  - destruct (f x) as [y|] eqn:E; simpl; [|discriminate].
    destruct (mapM f l) as [ys|]; simpl; [|discriminate].
    intros [= <-]. constructor; auto.
Qed.

(** The steps of a run that gets through its groups. *)
Lemma per_group_inv (data : DataFrame) (type : string) (g : groups) :
  per_group data type = Ok g ->
  get_labels data = Ok (label_of g) /\
  get_subsets data (label_of g) = Ok (subsets_of g, unique_labels g) /\
  mapM (fun subset => get_survival_days subset type) (subsets_of g)
  = Ok (survival_days_of g) /\
  mapM (fun subset => get_exit_status subset type) (subsets_of g)
  = Ok (exit_status_of g) /\
  exists pairs,
    mapM (fun sed =>
            ids <- getattr (snd sed) "sample_id" ;;
            get_survival_function_and_censored_dfs
              (fst (fst sed)) (snd (fst sed)) ids)
         (combine (combine (survival_days_of g) (exit_status_of g))
                  (subsets_of g)) = Ok pairs /\
    pairs <> [] /\
    split pairs = (survival_functions g, censored_dfs g).
Proof.
  unfold per_group.
  destruct (get_labels data) as [label|] eqn:El; simpl; [|discriminate].
  destruct (get_subsets data label) as [[subsets uniq]|] eqn:Es; simpl;
    [|discriminate].
  destruct (mapM (fun subset => get_survival_days subset type) subsets)
    as [sd|] eqn:Esd; simpl; [|discriminate].
  destruct (mapM (fun subset => get_exit_status subset type) subsets)
    as [es|] eqn:Ees; simpl; [|discriminate].
  match goal with
  | |- context [mapM ?f (combine (combine sd es) subsets)] =>
      destruct (mapM f (combine (combine sd es) subsets)) as [pairs|] eqn:Ep
  end; simpl; [|discriminate].
  destruct pairs as [|p pairs]; simpl; [discriminate|].
  destruct (split pairs) as [fs cs] eqn:Esp. destruct p as [f c]. simpl.
  intros [= <-]. simpl.
  split; [reflexivity|]. split; [exact Es|]. split; [exact Esd|].
  split; [exact Ees|].
  exists ((f, c) :: pairs). split; [exact Ep|]. split; [discriminate|].
  simpl. rewrite Esp. reflexivity.
Qed.

Lemma get_subsets_length (data : DataFrame) (label : Series cell)
  (subsets : list DataFrame) (uniq : list cell) :
  get_subsets data label = Ok (subsets, uniq) ->
  uniq = unique (values label) /\ length subsets = length uniq.
Proof.
  unfold get_subsets.
  destruct (mapM _ (unique (values label))) as [s|] eqn:E; simpl; [|discriminate].
  intros [= <- <-]. split; [reflexivity|]. apply (mapM_length _ _ _ E).
Qed.

(** The sizes of what a run computes: one duration Series, one event Series,
    one curve and one censored table per label, and in each group as many
    durations and events as subjects. *)
Lemma per_group_sizes (data : DataFrame) (type : string) (g : groups) :
  per_group data type = Ok g ->
  unique_labels g = unique (values (label_of g)) /\
  length (subsets_of g) = length (unique_labels g) /\
  Forall2 (fun d sd => length sd = len d /\ index sd = range_index (len d))
          (subsets_of g) (survival_days_of g) /\
  Forall2 (fun d es => length es = len d /\ index es = frame_index d)
          (subsets_of g) (exit_status_of g) /\
  length (survival_functions g) = length (unique_labels g) /\
  length (censored_dfs g) = length (unique_labels g).
Proof.
  intros H.
  destruct (per_group_inv _ _ _ H) as (Hl & Hs & Hsd & Hes & pairs & Hp & _ & Hsp).
  destruct (get_subsets_length _ _ _ _ Hs) as [Hu Hlen].
  pose proof (mapM_length _ _ _ Hsd) as Lsd.
  pose proof (mapM_length _ _ _ Hes) as Les.
  pose proof (mapM_length _ _ _ Hp) as Lp.
  rewrite !length_combine, Lsd, Les, !Nat.min_id in Lp.
  split; [exact Hu|]. split; [exact Hlen|]. split; [|split; [|split]].
  - apply mapM_Forall2 in Hsd. revert Hsd. apply Forall2_impl.
    intros d sd Hd. destruct (get_survival_days_shape _ _ _ Hd) as (? & ? & _).
    auto.
  - apply mapM_Forall2 in Hes. revert Hes. apply Forall2_impl.
    intros d es Hd. apply (get_exit_status_shape _ _ _ Hd).
  - rewrite <- Hlen, <- Lp.
    replace (survival_functions g) with (fst (split pairs)) by (rewrite Hsp; reflexivity).
    apply length_fst_split.
  - rewrite <- Hlen, <- Lp.
    replace (censored_dfs g) with (snd (split pairs)) by (rewrite Hsp; reflexivity).
    apply length_snd_split.
Qed.

Lemma Forall2_length_concat {A B C} (ds : list (list C))
  (a : list (list A)) (b : list (list B)) :
  Forall2 (fun d x => length x = length d) ds a ->
  Forall2 (fun d y => length y = length d) ds b ->
  length (concat a) = length (concat b).
Proof.
  intros Ha. revert b. induction Ha as [|d x ds a Hx Ha IH]; intros b Hb.
  - inversion Hb; reflexivity.
  - inversion Hb as [|d' y ds' b' Hy Hb']; subst. simpl.
    rewrite !length_app, Hx, Hy. f_equal. apply IH, Hb'.
Qed.

(** In a run the length check of [logrank_test] passes. *)
Lemma logrank_test_in_run (data : DataFrame) (type : string) (g : groups) :
  per_group data type = Ok g ->
  logrank_test (concat (survival_days_of g)) (concat (exit_status_of g))
               (label_of g)
  = compare_survival
      (combine (values (concat (exit_status_of g)))
               (values (concat (survival_days_of g))))
      (values (label_of g)).
Proof.
  intros H.
  destruct (per_group_sizes _ _ _ H) as (_ & _ & Hsd & Hes & _ & _).
  unfold logrank_test.
  assert (E : length (concat (exit_status_of g))
              = length (concat (survival_days_of g))).
  { apply (Forall2_length_concat (map rows (subsets_of g))).
    - clear -Hes. induction Hes as [|d es ds ess [Hl _] _ IH]; simpl;
        constructor; auto.
    - clear -Hsd. induction Hsd as [|d sd ds sds [Hl _] _ IH]; simpl;
        constructor; auto. }
  rewrite E, Nat.eqb_refl. reflexivity.
Qed.

(** The durations and the events handed to the comparator pair up: group by
    group they are as long as the subset, so the length check of
    [logrank_test] never fails in a run and its outcome is that of
    [compare_survival] on the pairs. *)
Theorem comparator_pairs_durations_and_events (data : DataFrame)
  (type : string) (g : groups) :
  per_group data type = Ok g ->
  map (@length _) (survival_days_of g) = map len (subsets_of g) /\
  map (@length _) (exit_status_of g) = map len (subsets_of g) /\
  map index (exit_status_of g) = map frame_index (subsets_of g) /\
  logrank_test (concat (survival_days_of g)) (concat (exit_status_of g))
               (label_of g)
  = compare_survival
      (combine (values (concat (exit_status_of g)))
               (values (concat (survival_days_of g))))
      (values (label_of g)).
Proof.
  intros H.
  destruct (per_group_sizes _ _ _ H) as (_ & _ & Hsd & Hes & _ & _).
  assert (M1 : map (@length _) (survival_days_of g) = map len (subsets_of g)).
  { clear -Hsd. induction Hsd as [|d sd ds sds [Hl _] _ IH]; simpl; congruence. }
  assert (M2 : map (@length _) (exit_status_of g) = map len (subsets_of g)).
  { clear -Hes. induction Hes as [|d es ds ess [Hl _] _ IH]; simpl; congruence. }
  assert (M3 : map index (exit_status_of g) = map frame_index (subsets_of g)).
  { clear -Hes. induction Hes as [|d es ds ess [_ Hi] _ IH]; simpl; congruence. }
  repeat (split; [assumption|]).
  apply (logrank_test_in_run _ _ _ H).
Qed.

Lemma group_writes_tables (ls : list cell) (fs : list survival_df)
  (cs : list censored_df) :
  length fs = length ls -> length cs = length ls ->
  map written_table
      (flat_map (fun lsc => [WriteResult (fst (fst lsc)) (snd (fst lsc));
                             WriteCensored (fst (fst lsc)) (snd lsc)])
                (combine (combine ls fs) cs))
  = flat_map (fun l => [Some ("result", Some l); Some ("censored", Some l)]) ls.
Proof.
  revert fs cs; induction ls as [|l ls IH]; intros [|f fs] [|c cs]; simpl;
    try discriminate; auto.
  intros [= Hf] [= Hc]. rewrite IH; auto.
Qed.

(** A run that gets through its groups writes, for each distinct label in
    order of first occurrence, the curve and then the censored table of the
    label, and after all of them at most the call of the comparator and its
    table. *)
Theorem tables_written_in_label_order (data : DataFrame) (type : string)
  (g : groups) :
  per_group data type = Ok g ->
  map written_table (group_writes g)
  = flat_map (fun l => [Some ("result", Some l); Some ("censored", Some l)])
             (unique (values (label_of g))) /\
  exists tail,
    fst (main data type) = group_writes g ++ tail /\
    (length tail <= 2)%nat /\
    forallb is_logrank_event tail = true.
Proof.
  intros H.
  destruct (per_group_sizes _ _ _ H) as (Hu & _ & _ & _ & Lf & Lc).
  split.
  - rewrite <- Hu. unfold group_writes. apply group_writes_tables; assumption.
  - unfold main. rewrite H.
    destruct (1 <? length (unique_labels g))%nat.
    + destruct (logrank_test _ _ _) as [[chi2 p]|e]; simpl.
      * eexists; split; [reflexivity|]. split; [simpl; lia|reflexivity].
      * eexists; split; [reflexivity|]. split; [simpl; lia|reflexivity].
    + exists []. simpl. rewrite app_nil_r. split; [reflexivity|].
      split; [lia|reflexivity].
Qed.

(** A table without rows has no group, and the run stops at the unpacking
    of the empty list of results, whatever the analysis type and the
    columns, with nothing written. *)
Theorem run_on_empty_table (data : DataFrame) (type : string) :
  rows data = [] ->
  main data type
  = ([], Raise (ValueError "not enough values to unpack (expected 2, got 0)")).
Proof.
  intros Hrows. unfold main, per_group.
  destruct (get_labels_total data) as (label & Hl). rewrite Hl. simpl.
  pose proof (get_labels_length _ _ Hl) as Hlen.
  unfold len in Hlen. rewrite Hrows in Hlen.
  destruct label; [|discriminate]. reflexivity.
Qed.

(** A table with rows and no [sample_id] column: when durations and events
    resolve for every group, the run raises an [AttributeError] for the
    column before any estimate, with nothing written. *)
Theorem missing_sample_id_aborts (data : DataFrame) (type : string)
  (label : Series cell) (subsets : list DataFrame) (uniq : list cell)
  (sds : list (Series float)) (ess : list (Series bool)) :
  rows data <> [] ->
  has_column "sample_id" data = false ->
  get_labels data = Ok label ->
  get_subsets data label = Ok (subsets, uniq) ->
  mapM (fun subset => get_survival_days subset type) subsets = Ok sds ->
  mapM (fun subset => get_exit_status subset type) subsets = Ok ess ->
  main data type = ([], Raise (AttributeError "sample_id")).
Proof.
  intros Hrows Hno Hl Hs Hsd Hes.
  destruct (first_group data Hrows) as (label' & d0 & rest & uniq' & Hl' & Hs' & Hc).
  assert (label' = label) by congruence. subst label'.
  rewrite Hs in Hs'. injection Hs' as -> ->.
  unfold main, per_group. rewrite Hl. cbn [bind]. rewrite Hs. cbn [bind].
  rewrite Hsd. cbn [bind]. rewrite Hes. cbn [bind].
  pose proof (mapM_length _ _ _ Hsd) as Lsd.
  pose proof (mapM_length _ _ _ Hes) as Les.
  destruct sds as [|sd sds]; [discriminate|].
  destruct ess as [|es ess]; [discriminate|].
  simpl. unfold getattr at 1.
  unfold has_column in Hno. rewrite Hc.
  destruct (column_position "sample_id" (columns data)); [discriminate|].
  reflexivity.
Qed.

End Run.

(** ** Grouping when labels are missing, and runs without a label column *)

Lemma select_none {A} (mask : list bool) (l : list A) :
  Forall (fun m => m = false) mask -> select mask l = [].
Proof.
  intros H. revert l; induction H as [|m mask -> _ IH]; intros [|x l];
    try reflexivity.
  rewrite select_cons. apply IH.
Qed.

Lemma select_some {A} (mask : list bool) (l : list A) :
  length mask = length l -> In true mask -> select mask l <> [].
Proof.
  revert l; induction mask as [|m mask IH]; intros [|x l]; simpl.
  - intros _ [].
  - discriminate.
  - discriminate.
  - intros [= Hlen] Hin. rewrite select_cons. destruct m; [discriminate|].
    destruct Hin as [|Hin]; [discriminate|]. apply IH; assumption.
Qed.

(** Masks of which at most one is true at every position: the pieces
    together are the positions where one is. *)
Lemma select_partition_some {A} (keys labels : list cell) (rws : list A) :
  length labels = length rws ->
  (forall c, In c labels ->
             length (filter (fun k => py_eq c k) keys)
             = if isna c then 0%nat else 1%nat) ->
  Permutation
    (concat (map (fun k => select (map (fun c => py_eq c k) labels) rws) keys))
    (select (map (fun c => negb (isna c)) labels) rws).
Proof.
  revert rws; induction labels as [|c cs IH]; intros [|r rs]; simpl;
    try discriminate.
  - intros _ _. induction keys; simpl; auto.
  - intros [= Hlen] Hone.
    assert (E : map (fun k => select (py_eq c k :: map (fun c0 => py_eq c0 k) cs)
                                (r :: rs)) keys
                = map (fun k => if py_eq c k
                                then r :: select (map (fun c0 => py_eq c0 k) cs) rs
                                else select (map (fun c0 => py_eq c0 k) cs) rs)
                      keys).
    { apply map_ext; intros k. apply select_cons. }
    rewrite E, select_cons.
    pose proof (Hone c (or_introl eq_refl)) as Hc.
    destruct (concat_one_key (fun k => py_eq c k)
                (fun k => select (map (fun c0 => py_eq c0 k) cs) rs) r keys)
      as [H0 H1].
    destruct (isna c); simpl.
    + rewrite (H0 Hc). apply IH; auto.
    + etransitivity; [apply (H1 Hc)|]. apply perm_skip, IH; auto.
Qed.

(** Grouping on any table: no two labels returned are the same, the subsets
    together are the subjects that have a label, a subject with a missing label is in none of them, the group of
    the missing label is empty and every other group has a subject. *)
Theorem grouping_drops_missing_labels (data : DataFrame) (label : Series cell) :
  get_labels data = Ok label ->
  exists subsets uniq,
    get_subsets data label = Ok (subsets, uniq) /\
    distinct_keys uniq /\
    Permutation (concat (map rows subsets))
                (select (map (fun c => negb (isna c)) (values label))
                        (rows data)) /\
    forall k d u,
      nth_error subsets k = Some d -> nth_error uniq k = Some u ->
      (isna u = true -> rows d = []) /\ (isna u = false -> rows d <> []).
Proof.
  intros Hlab. pose proof (get_labels_length _ _ Hlab) as Hlen.
  exists (map (subset_of data label) (unique (values label))),
         (unique (values label)).
  destruct (unique_from_distinct (values label) []) as [Hdist _].
  split; [apply get_subsets_eq, Hlen|]. split; [exact Hdist|]. split.
  - rewrite map_map. simpl. unfold eq_mask.
    apply select_partition_some; [rewrite values_length; exact Hlen|].
    intros c Hc. destruct (isna c) eqn:Ec.
    + rewrite filter_none; [reflexivity|].
      intros k _. apply py_eq_nan_l, Ec.
    + rewrite <- (one_key (unique (values label)) c Hdist).
      * f_equal. apply filter_ext_in. intros k _. symmetry.
        apply key_eq_notna, Ec.
      * destruct (unique_from_cover (values label) [] c Hc)
          as [(s & [] & _)|H]; exact H.
  - intros k d u Hd Hu. rewrite nth_error_map, Hu in Hd. injection Hd as <-.
    simpl. unfold eq_mask. split.
    + intros Hna. apply select_none. apply Forall_map, Forall_forall.
      intros c _. apply py_eq_nan_r, Hna.
    + intros Hna. apply select_some.
      * rewrite length_map, values_length. exact Hlen.
      * apply in_map_iff. exists u. split; [apply py_eq_refl, Hna|].
        apply nth_error_In in Hu. eapply unique_from_incl; exact Hu.
Qed.

Section RunShapes.

Context {L : Library}.

(** A table with rows and no [label] column: a run that gets through has
    the one group "0" holding the whole table, writes its curve and its
    censored table, calls no comparator and ends normally. *)
Theorem run_without_label_column (data : DataFrame) (type : string)
  (g : groups) :
  has_column "label" data = false -> rows data <> [] ->
  per_group data type = Ok g ->
  unique_labels g = [CStr "0"] /\ subsets_of g = [data] /\
  exists f c,
    survival_functions g = [f] /\ censored_dfs g = [c] /\
    main data type
    = ([WriteResult (CStr "0") f; WriteCensored (CStr "0") c], Ok tt).
Proof.
  intros Hno Hrows Hg.
  destruct (per_group_inv _ _ _ Hg) as (Hl & Hs & _).
  destruct (per_group_sizes _ _ _ Hg) as (_ & _ & _ & _ & Lf & Lc).
  pose proof (get_labels_length _ _ Hl) as Hlen.
  rewrite (get_subsets_eq _ _ Hlen) in Hs.
  unfold get_labels in Hl. rewrite Hno in Hl. simpl in Hl.
  injection Hl as Hl. rewrite <- Hl in Hs.
  rewrite values_const in Hs. rewrite unique_constant in Hs.
  2:{ intros E. apply Hrows. apply length_zero_iff_nil.
      pose proof (range_index_length (len data)) as HL.
      rewrite E in HL. symmetry; exact HL. }
  simpl in Hs. unfold subset_of, eq_mask in Hs.
  rewrite values_const, map_map in Hs. simpl in Hs.
  rewrite select_all in Hs.
  2:{ rewrite length_map. apply range_index_length. }
  2:{ apply Forall_map, Forall_forall. reflexivity. }
  injection Hs as Hsub Huniq.
  assert (Hd : {| columns := columns data; rows := rows data |} = data)
    by (destruct data; reflexivity).
  rewrite Hd in Hsub.
  split; [congruence|]. split; [congruence|].
  rewrite <- Huniq in Lf, Lc.
  destruct (survival_functions g) as [|f [|]] eqn:Ef; try discriminate.
  destruct (censored_dfs g) as [|c [|]] eqn:Ec; try discriminate.
  exists f, c. split; [reflexivity|]. split; [reflexivity|].
  unfold main. rewrite Hg. unfold group_writes.
  rewrite <- Huniq, Ef, Ec. reflexivity.
Qed.

Lemma get_labels_values (data : DataFrame) :
  exists f : Z * list cell -> cell,
    forall d, columns d = columns data ->
              exists l, get_labels d = Ok l /\ values l = map f (rows d).
Proof.
  unfold get_labels, has_column, getitem.
  destruct (column_position "label" (columns data)) as [k|] eqn:E.
  - exists (fun r => nth k (snd r) NaN). intros d ->. rewrite E. simpl.
    eexists. split; [reflexivity|]. unfold values. rewrite map_map.
    reflexivity.
  - exists (fun _ => CStr "0"). intros d ->. rewrite E. simpl.
    eexists. split; [reflexivity|]. rewrite values_const.
    unfold range_index, len. rewrite map_map.
    generalize 0%nat. induction (rows d) as [|r l IH]; intros n; simpl;
      [reflexivity|]. f_equal. apply IH.
Qed.

(** When the rows of the table are already in the order of the groups, the
    labels handed to the comparator are, group after group, the labels of
    the subjects of the group: at every position the label belongs to the
    subject of the duration and the event. *)
Theorem labels_aligned_when_rows_grouped (data : DataFrame) (type : string)
  (g : groups) :
  per_group data type = Ok g ->
  concat (map rows (subsets_of g)) = rows data ->
  exists labels,
    Forall2 (fun d l => get_labels d = Ok l) (subsets_of g) labels /\
    values (label_of g) = concat (map values labels) /\
    map (@length _) labels = map (@length _) (survival_days_of g).
Proof.
  intros Hg Hrows.
  destruct (per_group_inv _ _ _ Hg) as (Hl & Hs & _).
  destruct (per_group_sizes _ _ _ Hg) as (_ & _ & Hsd & _).
  pose proof (get_labels_length _ _ Hl) as Hlen.
  rewrite (get_subsets_eq _ _ Hlen) in Hs. injection Hs as Hsub _.
  destruct (get_labels_values data) as (f & Hf).
  assert (Hcols : Forall (fun d => columns d = columns data) (subsets_of g)).
  { rewrite <- Hsub. apply Forall_map, Forall_forall. reflexivity. }
  destruct (Hf data eq_refl) as (l0 & Hl0 & Hv0).
  assert (l0 = label_of g) by congruence. subst l0.
  rewrite Hv0, <- Hrows. clear Hv0 Hl0 Hrows Hsub Hl Hlen.
  induction Hsd as [|d sd ds sds [Hlsd _] Hrest IH].
  - exists []. repeat split; constructor.
  - inversion Hcols as [|? ? Hc Hcs]; subst.
    destruct (IH Hcs) as (ls & Hls & Hvs & Hlens).
    destruct (Hf d Hc) as (l & Hld & Hvl).
    exists (l :: ls). split; [constructor; assumption|]. split.
    + simpl. rewrite map_app, Hvl, Hvs. reflexivity.
    + simpl. f_equal; [|exact Hlens].
      rewrite <- (values_length l), Hvl, length_map. symmetry; exact Hlsd.
Qed.

End RunShapes.

Section Tables.

Context {L : Library}.

(** What the column read by the day tier entails under [progress]: a table
    that has the progression day column and no [vital_status_change_day]
    column passes the column check of the day tier and then raises a
    [KeyError] for the vital column. *)
Theorem progress_needs_vital_day_column (data : DataFrame)
  (r : Series (option Z) * Series bool) :
  get_survival_days_from_dates data "progression_status_change_date" = Ok r ->
  has_column "progression_status_change_day" data = true ->
  has_column "vital_status_change_day" data = false ->
  get_survival_days data "progress"
  = Raise (KeyError "vital_status_change_day").
Proof.
  intros Hr Hday Hno. rewrite get_survival_days_eq. simpl.
  rewrite Hr. simpl. destruct r as [s1 success].
  unfold get_survival_days_from_days. simpl. rewrite Hday. simpl.
  rewrite (has_column_false_getitem _ _ Hno). reflexivity.
Qed.

Lemma split_cons_inv {A B} (p : A * B) (pairs : list (A * B))
  (fs : list A) (cs : list B) :
  split (p :: pairs) = (fs, cs) ->
  exists fs' cs', fs = fst p :: fs' /\ cs = snd p :: cs' /\
                  split pairs = (fs', cs').
Proof.
  simpl. destruct (split pairs) as [fs' cs']. destruct p as [f c].
  intros [= <- <-]. eauto.
Qed.

(** The tables of a label come from the subset of that label: its curve is
    what the estimator returns on the events and the durations of the
    subset, in this order, and its censored table is what the extractor
    returns on them and the identifiers of the subset. *)
Theorem tables_come_from_their_group (data : DataFrame) (type : string)
  (g : groups) :
  per_group data type = Ok g ->
  Forall2
    (fun sed fc =>
       kaplan_meier_estimator (values (snd (fst sed))) (values (fst (fst sed)))
       = Ok (time (fst fc), survival_prob (fst fc),
             (conf_int_lower (fst fc), conf_int_upper (fst fc))) /\
       exists ids,
         getattr (snd sed) "sample_id" = Ok ids /\
         get_censored_df (fst (fst sed)) (snd (fst sed)) ids = Ok (snd fc))
    (combine (combine (survival_days_of g) (exit_status_of g)) (subsets_of g))
    (combine (survival_functions g) (censored_dfs g)) /\
  length (survival_functions g) = length (subsets_of g) /\
  length (censored_dfs g) = length (subsets_of g).
Proof.
  intros Hg.
  destruct (per_group_inv _ _ _ Hg) as (_ & _ & _ & _ & pairs & Hp & _ & Hsp).
  destruct (per_group_sizes _ _ _ Hg) as (_ & Hlen & _ & _ & Lf & Lc).
  split; [|split; congruence].
  apply mapM_Forall2 in Hp.
  revert Hsp. generalize (survival_functions g) (censored_dfs g).
  clear -Hp. induction Hp as [|sed p seds pairs Hx _ IH]; intros fs cs Hsp.
  - simpl in Hsp. injection Hsp as <- <-. constructor.
  - destruct (split_cons_inv _ _ _ _ Hsp) as (fs' & cs' & -> & -> & Hsp').
    simpl. constructor; [|apply IH, Hsp'].
    simpl. destruct (getattr (snd sed) "sample_id") as [ids|] eqn:Eids;
      simpl in Hx; [|discriminate].
    unfold get_survival_function_and_censored_dfs,
      estimate_survival_function in Hx.
    destruct (kaplan_meier_estimator _ _) as [[[t pr] ci]|] eqn:Ek;
      simpl in Hx; [|discriminate].
    destruct (get_censored_df _ _ ids) as [c|] eqn:Ec; simpl in Hx;
      [|discriminate].
    injection Hx as <-. simpl. split.
    + destruct ci; reflexivity.
    + exists ids. auto.
Qed.

End Tables.

(** ** The properties above at concrete tables *)

(** [no_diagnosis_table] under [vital]. *)
Lemma missing_diagnosis_date_key_error_witness :
  get_survival_days (L := iso_library) no_diagnosis_table "vital"
  = Raise (KeyError "diagnosis_date").
Proof.
  apply (missing_diagnosis_date_key_error (L := iso_library) no_diagnosis_table
           "vital" "vital_status_change_date" "vital_status_change_day");
    reflexivity.
Defined.

(** [unknown_day_table]: the cell of the first subject, whose dates parse. *)
Lemma non_numeric_day_cell_aborts_witness :
  exists idx' s',
    In (idx', CStr s') [(0, CStr "unknown"); (1, CStr "42")] /\
    int_literal s' = None /\
    get_survival_days (L := iso_library) unknown_day_table "vital"
    = Raise (ValueError ("could not convert string to float: "
                         ++ quoted s')).
Proof.
  apply (non_numeric_day_cell_aborts (L := iso_library) unknown_day_table
           ([(0, Some 10); (1, None)], [(0, true); (1, false)])
           [(0, CStr "unknown"); (1, CStr "42")] 0 "unknown");
    try reflexivity.
  left; reflexivity.
Defined.

(** [partial_gap_table]: the resolution returns, and the first subject, the
    one without a day count, stays unresolved. *)
Lemma unresolved_duration_is_nan_witness :
  exists s,
    get_survival_days (L := iso_library) partial_gap_table "vital" = Ok s /\
    forall i idx x,
      nth_error (values [(0%Z, false); (1%Z, false)]) i = Some false ->
      nth_error [(0, NaN); (1, CInt 42)] i = Some (idx, x) ->
      isna x = true ->
      exists f, to_float (L := iso_library) x = Ok f /\
                nth_error (values s) i = Some f /\ is_nan f = true.
Proof.
  apply (unresolved_duration_is_nan (L := iso_library) partial_gap_table
           [(0, None); (1, None)] [(0, false); (1, false)]
           [(0, NaN); (1, CInt 42)]).
  - vm_compute; reflexivity.
  - reflexivity.
  - intros idx x [H|[H|[]]]; injection H as <- <-; intros Hna;
      [discriminate|]. exists (float_of_Z 42). reflexivity.
Defined.

(** [reversed_dates_table]: ten days backwards. *)
Lemma date_tier_rounds_down_witness :
  exists z,
    nth_error (values [(0, (-10)%float)]) 0 = Some (float_of_Z z) /\
    z * nanoseconds_per_day
    <= 18262 * nanoseconds_per_day - 18272 * nanoseconds_per_day
    < (z + 1) * nanoseconds_per_day /\
    (18262 * nanoseconds_per_day < 18272 * nanoseconds_per_day -> z < 0).
Proof.
  apply (date_tier_rounds_down (L := iso_library) reversed_dates_table "vital"
           [(0, (-10)%float)] "vital_status_change_date"
           "vital_status_change_day"
           [(0, CStr "2020-01-01")] [(0, CStr "2020-01-11")]
           [Some (18262 * nanoseconds_per_day)]
           [Some (18272 * nanoseconds_per_day)] 0);
    vm_compute; reflexivity.
Defined.

(** [progress_only_table] under [progress]. *)
Lemma progress_needs_vital_day_column_witness :
  get_survival_days (L := iso_library) progress_only_table "progress"
  = Raise (KeyError "vital_status_change_day").
Proof.
  apply (progress_needs_vital_day_column (L := iso_library) progress_only_table
           ([(0, None)], [(0, false)])); reflexivity.
Defined.

(** [fallback_table] under [vital]: two durations, two indicators. *)
Lemma events_after_durations_witness :
  exists es,
    get_exit_status fallback_table "vital" = Ok es /\
    length es = length [(0, 10%float); (1, 42%float)] /\
    index es = frame_index fallback_table.
Proof.
  destruct (events_after_durations (L := iso_library) fallback_table "vital"
              [(0, 10%float); (1, 42%float)]) as (_ & [[H _]|H]).
  - vm_compute; reflexivity.
  - discriminate.
  - exact H.
Defined.

(** [group_b_subset] under [vital]: one censored subject, two rows. *)
Lemma censored_extractor_returns_witness :
  exists df,
    get_censored_df [(0, 42%float)] [(1, false)] [(1, CStr "s1")] = Ok df /\
    (length (filter negb (values [(1%Z, false)])) <= length df)%nat.
Proof.
  apply (censored_extractor_returns (L := iso_library) group_b_subset "vital");
    vm_compute; reflexivity.
Defined.

(** [interleaved_table] under [vital]. *)
Lemma comparator_pairs_durations_and_events_witness :
  exists g,
    per_group (L := iso_library) interleaved_table "vital" = Ok g /\
    map (@length _) (survival_days_of g) = map len (subsets_of g) /\
    map (@length _) (exit_status_of g) = map len (subsets_of g).
Proof.
  destruct (per_group (L := iso_library) interleaved_table "vital")
    as [g|] eqn:Hg; [|vm_compute in Hg; discriminate].
  exists g. split; [reflexivity|].
  destruct (comparator_pairs_durations_and_events (L := iso_library) _ _ _ Hg)
    as (H1 & H2 & _).
  split; assumption.
Defined.

(** [interleaved_table] under [vital]: A before B. *)
Lemma tables_written_in_label_order_witness :
  exists g,
    per_group (L := iso_library) interleaved_table "vital" = Ok g /\
    map written_table (group_writes g)
    = [Some ("result", Some (CStr "A")); Some ("censored", Some (CStr "A"));
       Some ("result", Some (CStr "B")); Some ("censored", Some (CStr "B"))].
Proof.
  destruct (per_group (L := iso_library) interleaved_table "vital")
    as [g|] eqn:Hg; [|vm_compute in Hg; discriminate].
  exists g. split; [reflexivity|].
  destruct (tables_written_in_label_order (L := iso_library) _ _ _ Hg)
    as (H & _).
  rewrite H. vm_compute in Hg. injection Hg as <-. reflexivity.
Defined.

(** [empty_table] under a valid analysis type. *)
Lemma run_on_empty_table_witness :
  main (L := iso_library) empty_table "vital"
  = ([], Raise (ValueError "not enough values to unpack (expected 2, got 0)")).
Proof. apply run_on_empty_table. reflexivity. Defined.

(** [no_sample_id_table] under [vital]. *)
Lemma missing_sample_id_aborts_witness :
  main (L := iso_library) no_sample_id_table "vital"
  = ([], Raise (AttributeError "sample_id")).
Proof.
  apply (missing_sample_id_aborts (L := iso_library) no_sample_id_table "vital"
           [(0, CStr "0")] [no_sample_id_table] [CStr "0"]
           [[(0, 10%float)]] [[(0, true)]]);
    try reflexivity.
  discriminate.
Defined.

(** [missing_label_table]: the subsets together are the first subject. *)
Lemma grouping_drops_missing_labels_witness :
  exists subsets uniq,
    get_subsets missing_label_table [(0, CStr "A"); (1, NaN)]
    = Ok (subsets, uniq) /\
    Permutation (concat (map rows subsets)) [(0, [CStr "s0"; CStr "A"])].
Proof.
  destruct (grouping_drops_missing_labels missing_label_table
              [(0, CStr "A"); (1, NaN)] eq_refl)
    as (subsets & uniq & Hs & _ & Hp & _).
  exists subsets, uniq. split; [exact Hs|exact Hp].
Defined.

(** [fallback_table] has no label column. *)
Lemma run_without_label_column_witness :
  exists g,
    per_group (L := iso_library) fallback_table "vital" = Ok g /\
    unique_labels g = [CStr "0"] /\ subsets_of g = [fallback_table].
Proof.
  destruct (per_group (L := iso_library) fallback_table "vital")
    as [g|] eqn:Hg; [|vm_compute in Hg; discriminate].
  exists g. split; [reflexivity|].
  destruct (run_without_label_column (L := iso_library) fallback_table "vital" g)
    as (H1 & H2 & _); [reflexivity|discriminate|exact Hg|].
  split; assumption.
Defined.

(** [two_group_table]: its rows are in the order of the groups. *)
Lemma labels_aligned_when_rows_grouped_witness :
  exists g labels,
    per_group (L := iso_library) two_group_table "vital" = Ok g /\
    Forall2 (fun d l => get_labels d = Ok l) (subsets_of g) labels /\
    values (label_of g) = concat (map values labels).
Proof.
  destruct (per_group (L := iso_library) two_group_table "vital")
    as [g|] eqn:Hg; [|vm_compute in Hg; discriminate].
  destruct (labels_aligned_when_rows_grouped (L := iso_library) _ _ _ Hg)
    as (labels & H1 & H2 & _).
  - vm_compute in Hg. injection Hg as <-. reflexivity.
  - exists g, labels. split; [reflexivity|]. split; assumption.
Defined.

(** [interleaved_table] under [vital]: two curves, two censored tables. *)
Lemma tables_come_from_their_group_witness :
  exists g,
    per_group (L := iso_library) interleaved_table "vital" = Ok g /\
    length (survival_functions g) = length (subsets_of g) /\
    length (censored_dfs g) = length (subsets_of g).
Proof.
  destruct (per_group (L := iso_library) interleaved_table "vital")
    as [g|] eqn:Hg; [|vm_compute in Hg; discriminate].
  exists g. split; [reflexivity|].
  destruct (tables_come_from_their_group (L := iso_library) _ _ _ Hg)
    as (_ & H1 & H2).
  split; assumption.
Defined.

(** ** Subsets and the comparator's failure *)

Lemma getitem_select (data : DataFrame) (mask : list bool) (c : string)
  (s : Series cell) :
  getitem data c = Ok s ->
  getitem {| columns := columns data; rows := select mask (rows data) |} c
  = Ok (select mask s).
Proof.
  unfold getitem; simpl.
  destruct (column_position c (columns data)); [|discriminate].
  intros [= <-]. rewrite select_map. reflexivity.
Qed.

(** Classifying the subset of a label gives the indicators of the whole
    table at the rows of the subset, under the same row labels. *)
Theorem exit_status_of_subset (data : DataFrame) (type : string)
  (label : Series cell) (u : cell) (es : Series bool) :
  get_exit_status data type = Ok es ->
  get_exit_status (subset_of data label u) type
  = Ok (select (eq_mask label u) es).
Proof.
  intros H. pose proof (get_exit_status_type _ _ _ H) as Ht.
  rewrite (get_exit_status_eq data type Ht) in H.
  rewrite (get_exit_status_eq (subset_of data label u) type Ht).
  destruct (getitem data (status_column type)) as [col|] eqn:Ec; simpl in H;
    [|discriminate].
  injection H as <-. unfold subset_of.
  rewrite (getitem_select _ (eq_mask label u) _ _ Ec). simpl.
  rewrite select_map. reflexivity.
Qed.

(** [status_table] with its second subject left out. *)
Lemma exit_status_of_subset_witness :
  get_exit_status
    (subset_of status_table [(0, CStr "A"); (1, CStr "B"); (2, CStr "A")]
               (CStr "A")) "vital"
  = Ok [(0, true); (2, false)].
Proof.
  rewrite (exit_status_of_subset status_table "vital" _ _
             [(0, true); (1, false); (2, false)] eq_refl).
  reflexivity.
Defined.

Section ComparatorFailure.

Context {L : Library}.

(** When there are two labels or more and [compare_survival] raises, the
    run ends with that error after the tables of every group have been
    written, and without a comparison table. *)
Theorem comparator_failure_keeps_group_tables (data : DataFrame)
  (type : string) (g : groups) (e : exn) :
  per_group data type = Ok g ->
  (2 <= length (unique (values (label_of g))))%nat ->
  compare_survival
    (combine (values (concat (exit_status_of g)))
             (values (concat (survival_days_of g))))
    (values (label_of g)) = Raise e ->
  main data type
  = (group_writes g
       ++ [CallLogrank (values (concat (survival_days_of g)))
                       (values (concat (exit_status_of g)))
                       (values (label_of g))],
     Raise e) /\
  length (group_writes g)
  = (2 * length (unique (values (label_of g))))%nat.
Proof.
  intros Hg Hn He.
  destruct (per_group_sizes _ _ _ Hg) as (Hu & _ & _ & _ & Lf & Lc).
  split.
  - unfold main. rewrite Hg, Hu.
    destruct (Nat.ltb_spec 1 (length (unique (values (label_of g)))));
      [|lia].
    rewrite (logrank_test_in_run _ _ _ Hg), He. reflexivity.
  - rewrite <- Hu. unfold group_writes. revert Lf Lc.
    generalize (unique_labels g) (survival_functions g) (censored_dfs g).
    induction l as [|x l IH]; intros [|f fs] [|c cs]; simpl; try discriminate;
      auto.
    intros [= Hf] [= Hc]. rewrite (IH fs cs Hf Hc). lia.
Qed.

End ComparatorFailure.

(** [interleaved_table]: four group tables, then the failing call. *)
Lemma comparator_failure_keeps_group_tables_witness :
  exists g,
    per_group (L := failing_comparator_library) interleaved_table "vital"
    = Ok g /\
    snd (main (L := failing_comparator_library) interleaved_table "vital")
    = Raise (LibraryError "comparison failed") /\
    length (group_writes g) = 4%nat.
Proof.
  destruct (per_group (L := failing_comparator_library) interleaved_table
              "vital") as [g|] eqn:Hg; [|vm_compute in Hg; discriminate].
  exists g. split; [reflexivity|].
  destruct (comparator_failure_keeps_group_tables
              (L := failing_comparator_library) _ _ g
              (LibraryError "comparison failed") Hg) as [Hm Hl].
  - vm_compute in Hg. injection Hg as <-. vm_compute. lia.
  - reflexivity.
  - rewrite Hm, Hl. split; [reflexivity|].
    vm_compute in Hg. injection Hg as <-. reflexivity.
Defined.
